(** * PasteboardQt: the Qt pasteboard of WebCore, embedded in Rocq

    Source: Source/WebCore/platform/qt/PasteboardQt.cpp.

    A [Pasteboard] is a record of the four members the constructor
    initialises.  The Qt objects the file talks to ([QMimeData], [QClipboard],
    the UTF-16 [QTextCodec]) are modelled as values and pure functions that
    follow the Qt 5 implementation; what belongs to other layers ([QUrl]
    parsing, the UTF-8 codec, markup and fragment construction) is an
    interface whose operations stay abstract. *)

From Stdlib Require Import ZArith List Bool Lia.
From Stdlib Require Strings.String Strings.Ascii.
Import ListNotations.
Import Strings.String.StringSyntax.
Delimit Scope string_scope with string.
Open Scope Z_scope.

(** ** Strings and byte arrays *)

(** A UTF-16 code unit: an unsigned 16-bit integer. *)
Definition UChar := Z.

(** [WTF::String] and [QString] are both sequences of UTF-16 code units and
    convert into each other unit by unit. *)
Definition String := list UChar.
Definition QString := list UChar.

(** [QByteArray]: a sequence of bytes, each in 0..255. *)
Definition QByteArray := list Z.

Definition isUChar (c : Z) : Prop := 0 <= c < 65536.
Definition wellFormed (s : String) : Prop := Forall isUChar s.

(** [QLatin1String("...")] and C string literals: one code unit per
    character. *)
Fixpoint QLatin1String (s : Strings.String.string) : QString :=
  match s with
  | Strings.String.EmptyString => []
  | Strings.String.String a rest =>
      Z.of_N (Strings.Ascii.N_of_ascii a) :: QLatin1String rest
  end.

Arguments QLatin1String s%_string.

(** [operator==] on strings. *)
Fixpoint equal (a b : String) : bool :=
  match a, b with
  | [], [] => true
  | x :: a', y :: b' => (x =? y) && equal a' b'
  | _, _ => false
  end.

(** [String::startsWith], case sensitive. *)
Fixpoint startsWith (s prefix : String) {struct prefix} : bool :=
  match prefix, s with
  | [], _ => true
  | p :: ps, c :: cs => (c =? p) && startsWith cs ps
  | _ :: _, [] => false
  end.

(** [isEmpty] of [QString] and of [QList]. *)
Definition isEmpty {A : Type} (s : list A) : bool :=
  match s with [] => true | _ :: _ => false end.

(** [QString::replace(QChar before, QChar after)]: every occurrence. *)
Definition replace (before after : UChar) (s : QString) : QString :=
  map (fun c => if c =? before then after else c) s.

Definition text_plain : QString := QLatin1String "text/plain".
Definition text_html : QString := QLatin1String "text/html".
Definition text_uri_list : QString := QLatin1String "text/uri-list".
Definition smartpaste : QString :=
  QLatin1String "application/vnd.qtwebkit.smartpaste".

(** ** The two privileged type identifiers (lines 52-60) *)

Definition isTextMimeType (type : String) : bool :=
  equal type (QLatin1String "text/plain")
  || startsWith type (QLatin1String "text/plain;").

Definition isHtmlMimeType (type : String) : bool :=
  equal type (QLatin1String "text/html")
  || startsWith type (QLatin1String "text/html;").

(** ** Collaborators outside this file *)

(** The parts of Qt that the pasteboard only passes values through: URLs,
    pixmaps, the UTF-8 and HTML codecs, and two build-time facts (the byte
    order of the host and whether the build targets [Q_OS_MAC]).  With them
    come two facts about [WTF::String], whose header is not among the
    sources: whether a string is held as 8-bit characters
    ([String::is8Bit]), and the bytes that lie in memory behind its
    character buffer. *)
Class QtPlatform : Type := {
  QUrl : Type;
  QPixmap : Type;
  url_scheme : QUrl -> QString;
  url_toLocalFile : QUrl -> QString;
  urls_fromUriList : QByteArray -> list QUrl;
  urls_toUriList : list QUrl -> QByteArray;
  urls_toText : list QUrl -> QString;
  utf8_toUnicode : QByteArray -> QString;
  utf8_fromUnicode : QString -> QByteArray;
  html_toUnicode : QByteArray -> QString;
  bigEndianHost : bool;
  Q_OS_MAC : bool;
  is8Bit : String -> bool;
  memoryAfter : String -> QByteArray
}.

(** The document and editing layer: selected text, markup serialisation and
    the two fragment constructors. *)
Class EditingLayer : Type := {
  Frame : Type;
  Range : Type;
  DocumentFragment : Type;
  selectedText : Frame -> String;
  selectedTextForDataTransfer : Frame -> String;
  createMarkup : Range -> String;
  createFragmentFromMarkup : Frame -> String -> option DocumentFragment;
  createFragmentFromText : Range -> String -> option DocumentFragment
}.

Inductive ShouldSerializeSelectedTextForDataTransfer : Type :=
  | DefaultSelectedTextType
  | IncludeImageAltTextForDataTransfer.

Inductive SmartReplaceOption : Type :=
  | CanSmartReplace
  | CannotSmartReplace.

(** [QClipboard::Mode], restricted to the two modes the file names. *)
Inductive Mode : Type :=
  | Clipboard
  | Selection.

(** [QUtf16Codec]'s endianness state. *)
Inductive DataEndianness : Type :=
  | DetectEndianness
  | BigEndianness
  | LittleEndianness.

Section Model.

Context {qt : QtPlatform} {editing : EditingLayer}.

(** ** [QMimeData] *)

(** What a [QMimeData] entry holds ([QVariant], restricted to the types the
    setters used here produce). *)
Inductive QVariant : Type :=
  | VString (s : QString)
  | VByteArray (b : QByteArray)
  | VUrlList (l : list QUrl)
  | VImage (p : QPixmap).

(** [QMimeDataPrivate::dataList]: (format, data) pairs in insertion order. *)
Definition QMimeData : Type := list (QString * QVariant).

Definition newQMimeData : QMimeData := [].

(** [QMimeData::formats]. *)
Definition formats (md : QMimeData) : list QString := map fst md.

(** [QMimeData::hasFormat]: [formats().contains(mimeType)]. *)
Definition hasFormat (mimeType : QString) (md : QMimeData) : bool :=
  existsb (equal mimeType) (formats md).

(** [QMimeDataPrivate::getData]: the first entry of that format. *)
Fixpoint getData (format : QString) (md : QMimeData) : option QVariant :=
  match md with
  | [] => None
  | (f, v) :: rest => if equal f format then Some v else getData format rest
  end.

(** [QMimeDataPrivate::removeData] ([QMimeData::removeFormat]): removes the
    first entry of that format and stops. *)
Fixpoint removeFormat (format : QString) (md : QMimeData) : QMimeData :=
  match md with
  | [] => []
  | (f, v) :: rest =>
      if equal f format then rest else (f, v) :: removeFormat format rest
  end.

(** [QMimeDataPrivate::setData]: removes the format if present, then
    appends. *)
Definition setVariant (format : QString) (v : QVariant) (md : QMimeData)
  : QMimeData :=
  removeFormat format md ++ [(format, v)].

(** [QMimeData::setText], [setHtml], [setUrls], [setImageData]. *)
Definition setText (text : QString) : QMimeData -> QMimeData :=
  setVariant text_plain (VString text).
Definition setHtml (html : QString) : QMimeData -> QMimeData :=
  setVariant text_html (VString html).
Definition setUrls (urls : list QUrl) : QMimeData -> QMimeData :=
  setVariant text_uri_list (VUrlList urls).
Definition setImageData (p : QPixmap) : QMimeData -> QMimeData :=
  setVariant (QLatin1String "application/x-qt-image") (VImage p).

(** [QMimeData::setData]: a byte array, except that a URI list is parsed
    into URLs. *)
Definition setData (mimeType : QString) (data : QByteArray) (md : QMimeData)
  : QMimeData :=
  if equal mimeType text_uri_list
  then setVariant mimeType (VUrlList (urls_fromUriList data)) md
  else setVariant mimeType (VByteArray data) md.

(** [QMimeData::urls]. *)
Definition urls (md : QMimeData) : list QUrl :=
  match getData text_uri_list md with
  | Some (VUrlList l) => l
  | Some (VByteArray b) => urls_fromUriList b
  | _ => []
  end.

(** The start of [QMimeDataPrivate::retrieveTypedData]: the entry of the
    format; when "text/plain" is asked for and absent, the URL list, if
    there is one, written out as text. *)
Definition retrieveData (format : QString) (md : QMimeData)
  : option QVariant :=
  match getData format md with
  | Some v => Some v
  | None =>
      if equal format text_plain then
        match getData text_uri_list md with
        | Some (VUrlList _) | Some (VByteArray _) =>
            Some (VString (urls_toText (urls md)))
        | _ => None
        end
      else None
  end.

(** [QMimeData::data]: the entry converted to bytes; empty when absent. *)
Definition data (mimeType : QString) (md : QMimeData) : QByteArray :=
  match retrieveData mimeType md with
  | Some (VByteArray b) => b
  | Some (VString s) => utf8_fromUnicode s
  | Some (VUrlList l) => urls_toUriList l
  | Some (VImage _) => []
  | None => []
  end.

(** [QMimeData::hasText], [hasHtml], [hasUrls]. *)
Definition hasUrls (md : QMimeData) : bool := hasFormat text_uri_list md.
Definition hasText (md : QMimeData) : bool :=
  hasFormat text_plain md || hasUrls md.
Definition hasHtml (md : QMimeData) : bool := hasFormat text_html md.

(** [QMimeData::text]: the "text/plain" entry as a string (bytes are decoded
    as UTF-8). *)
Definition text (md : QMimeData) : QString :=
  match retrieveData text_plain md with
  | Some (VString s) => s
  | Some (VByteArray b) => utf8_toUnicode b
  | _ => []
  end.

(** [QMimeData::html]: the "text/html" entry as a string (bytes are decoded
    with the codec the markup declares, UTF-8 by default). *)
Definition html (md : QMimeData) : QString :=
  match retrieveData text_html md with
  | Some (VString s) => s
  | Some (VByteArray b) => html_toUnicode b
  | _ => []
  end.

(** ** The UTF-16 codec *)

(** [QChar(cell, row)]: the code unit with the given low and high byte. *)
Definition mkQChar (row cell : Z) : UChar := row * 256 + cell.

(** [(ch >> 8) | ((ch & 0xff) << 8)]: the two bytes of a code unit swapped. *)
Definition byteSwapped (ch : UChar) : UChar :=
  Z.lor (Z.shiftr ch 8) (Z.shiftl (Z.land ch 255) 8).

Definition ByteOrderMark : UChar := 65279.     (* 0xfeff *)
Definition ByteOrderSwapped : UChar := 65534.  (* 0xfffe *)

(** The loop of [QUtf16::convertToUnicode] called without converter state:
    [half] holds the pending first byte of a unit, [headerdone] says whether
    the first unit has been looked at.  A leading byte order mark is consumed
    and fixes the byte order; without one the host's order is used.  A
    trailing odd byte is dropped. *)
Fixpoint convertToUnicode (chars : QByteArray) (endian : DataEndianness)
    (half : option Z) (headerdone : bool) (result : QString) : QString :=
  match chars with
  | [] => result
  | b :: rest =>
      match half with
      | None => convertToUnicode rest endian (Some b) headerdone result
      | Some buf =>
          let ch :=
            match endian with
            | LittleEndianness => mkQChar b buf
            | _ => mkQChar buf b
            end in
          if headerdone then
            convertToUnicode rest endian None true (result ++ [ch])
          else
            match endian with
            | DetectEndianness =>
                if ch =? ByteOrderSwapped then
                  convertToUnicode rest LittleEndianness None true result
                else if ch =? ByteOrderMark then
                  convertToUnicode rest BigEndianness None true result
                else if bigEndianHost then
                  convertToUnicode rest BigEndianness None true
                    (result ++ [ch])
                else
                  convertToUnicode rest LittleEndianness None true
                    (result ++ [byteSwapped ch])
            | _ =>
                if ch =? ByteOrderMark then
                  convertToUnicode rest endian None true result
                else
                  convertToUnicode rest endian None true (result ++ [ch])
            end
      end
  end.

(** [QTextCodec::codecForName("UTF-16")->toUnicode(rawData)]. *)
Definition utf16_toUnicode (rawData : QByteArray) : QString :=
  convertToUnicode rawData DetectEndianness None false [].

(** The two bytes of one code unit as they lie in memory on the host. *)
Definition unitBytes (c : UChar) : QByteArray :=
  if bigEndianHost then [Z.shiftr c 8; Z.land c 255]
  else [Z.land c 255; Z.shiftr c 8].

(** The code units of a string as they lie in memory on the host. *)
Definition utf16Bytes (s : String) : QByteArray :=
  flat_map unitBytes s.

(** The conversion of an unsigned 32-bit value to [int]. *)
Definition toInt (n : Z) : Z :=
  if n <? 2147483648 then n else n - 4294967296.

(** [data.length() * 2] as the [int size] parameter receives it: the
    product of an [unsigned] and an [int] is taken modulo 2^32 and then
    converted to [int]. *)
Definition byteCount (s : String) : Z :=
  toInt ((Z.of_nat (length s) * 2) mod 4294967296).

(** The memory that [data.characters16()] points to: the buffer of the
    string, which holds two bytes per code unit when the string is held as
    16-bit units and one byte per character when it is held as 8-bit
    characters (the function does not test [is8Bit]), followed by whatever
    lies behind the buffer. *)
Definition memoryAtCharacters16 (s : String) : QByteArray :=
  (if is8Bit s then map (fun c => Z.land c 255) s else utf16Bytes s)
  ++ memoryAfter s.

(** The bytes of a nul-terminated string. *)
Fixpoint untilNul (bytes : QByteArray) : QByteArray :=
  match bytes with
  | [] => []
  | b :: rest => if b =? 0 then [] else b :: untilNul rest
  end.

(** [QByteArray(const char* data, int size)]: the first [size] bytes at
    [data]; a negative [size] means a nul-terminated string. *)
Definition QByteArray_fromData (memory : QByteArray) (size : Z)
  : QByteArray :=
  if size <? 0 then untilNul memory else firstn (Z.to_nat size) memory.

(** [QByteArray(reinterpret_cast<const char*>(data.characters16()),
    data.length() * 2)]. *)
Definition characters16Bytes (s : String) : QByteArray :=
  QByteArray_fromData (memoryAtCharacters16 s) (byteCount s).

(** ** The host clipboard *)

(** The contents of the two clipboards of [QGuiApplication::clipboard()]
    (a cleared clipboard holds no format), and the [QMimeData] buffers this
    file has passed to [delete]. *)
Record World : Type := mkWorld {
  hostClipboard : QMimeData;
  hostSelection : QMimeData;
  deleted : list QMimeData
}.

(** [QClipboard::mimeData(mode)]. *)
Definition mimeData (mode : Mode) (w : World) : QMimeData :=
  match mode with
  | Clipboard => hostClipboard w
  | Selection => hostSelection w
  end.

(** [QClipboard::setMimeData(src, mode)]; a null [src] clears.  The world
    records the entries the clipboard then shows.  The clipboard takes the
    object itself: where the file passes [m_writableData] (lines 256 and
    348) the clipboard and the instance hold one buffer from then on, which
    [handsBufferToHost] below records; the entries kept here are those at
    the moment of the call. *)
Definition setMimeData (src : option QMimeData) (mode : Mode) (w : World)
  : World :=
  let d := match src with Some d => d | None => newQMimeData end in
  match mode with
  | Clipboard => mkWorld d (hostSelection w) (deleted w)
  | Selection => mkWorld (hostClipboard w) d (deleted w)
  end.

(** [QClipboard::text(mode)]. *)
Definition clipboardText (mode : Mode) (w : World) : QString :=
  text (mimeData mode w).

(** [QClipboard::setPixmap(pixmap, mode)]. *)
Definition setPixmap (pixmap : QPixmap) (mode : Mode) (w : World) : World :=
  setMimeData (Some (setImageData pixmap newQMimeData)) mode w.

(** [delete ptr]: a no-op on a null pointer. *)
Definition delete (ptr : option QMimeData) (w : World) : World :=
  match ptr with
  | Some d => mkWorld (hostClipboard w) (hostSelection w) (d :: deleted w)
  | None => w
  end.

(** ** The pasteboard instance *)

Record Pasteboard : Type := mkPasteboard {
  m_selectionMode : bool;
  m_readableData : option QMimeData;
  m_writableData : option QMimeData;
  m_isForDragAndDrop : bool
}.

(** The constructor (lines 100-106). *)
Definition Pasteboard_new (readableClipboard : option QMimeData)
    (isForDragAndDrop : bool) : Pasteboard :=
  mkPasteboard false readableClipboard None isForDragAndDrop.

(** [Pasteboard::create] (lines 62-65). *)
Definition create (readableClipboard : option QMimeData)
    (isForDragAndDrop : bool) : Pasteboard :=
  Pasteboard_new readableClipboard isForDragAndDrop.

(** Modelled from the spec: Pasteboard.h is not among the sources, so the
    default arguments of [create] are taken from section 4.1.  The private
    variant, which calls [create()], has no readable binding; the clipboard
    variant, which calls [create(data)], is classified copy-and-paste, so
    the omitted second argument is false. *)
Definition create_default_readableClipboard : option QMimeData := None.
Definition create_default_isForDragAndDrop : bool := false.

(** Modelled from the spec: the two mode queries are declared in
    Pasteboard.h; section 4.1 makes them pure functions of the
    classification set at construction, and the only such member is
    [m_isForDragAndDrop]. *)
Definition isForDragAndDrop (p : Pasteboard) : bool := m_isForDragAndDrop p.
Definition isForCopyAndPaste (p : Pasteboard) : bool :=
  negb (m_isForDragAndDrop p).

(** Modelled from the spec: [clipboardData] is declared in Pasteboard.h;
    section 4.2 calls it the instance's data snapshot pushed to the host,
    which is the writable binding. *)
Definition clipboardData (p : Pasteboard) : option QMimeData :=
  m_writableData p.

(** [createForCopyAndPaste] (lines 67-74), with the clipboard compiled in. *)
Definition createForCopyAndPaste (w : World) : Pasteboard :=
  create (Some (mimeData Clipboard w)) create_default_isForDragAndDrop.

(** [createForGlobalSelection] (lines 76-81). *)
Definition createForGlobalSelection (w : World) : Pasteboard :=
  let pasteboard := createForCopyAndPaste w in
  mkPasteboard true (m_readableData pasteboard) (m_writableData pasteboard)
    (m_isForDragAndDrop pasteboard).

(** [createPrivate] (lines 83-86). *)
Definition createPrivate : Pasteboard :=
  create create_default_readableClipboard create_default_isForDragAndDrop.

(** [createForDragAndDrop()] (lines 89-92). *)
Definition createForDragAndDrop : Pasteboard := create None true.

(** [createForDragAndDrop(dragData)] (lines 94-97); the argument is
    [dragData.platformData()]. *)
Definition createForDragAndDropWith (platformData : option QMimeData)
  : Pasteboard :=
  create platformData true.

(** The destructor (lines 108-115): what it passes to [delete]. *)
Definition Pasteboard_destroy (p : Pasteboard) (w : World) : World :=
  match m_writableData p with
  | Some d => if isForCopyAndPaste p then w else delete (Some d) w
  | None => delete None w
  end.

(** The clipboard the instance writes to and reads plain text from:
    [m_selectionMode ? QClipboard::Selection : QClipboard::Clipboard]. *)
Definition targetMode (p : Pasteboard) : Mode :=
  if m_selectionMode p then Selection else Clipboard.

Definition set_writableData (d : option QMimeData) (p : Pasteboard)
  : Pasteboard :=
  mkPasteboard (m_selectionMode p) (m_readableData p) d
    (m_isForDragAndDrop p).

(** The shell that the [Q_OS_MAC] build wraps around the markup. *)
Definition macMarkupPrefix : QString :=
  QLatin1String "<html><head><meta http-equiv=" ++ [34]
  ++ QLatin1String "Content-Type" ++ [34]
  ++ QLatin1String " content=" ++ [34]
  ++ QLatin1String "text/html; charset=utf-8" ++ [34]
  ++ QLatin1String " /></head><body>".
Definition macMarkupSuffix : QString := QLatin1String "</body></html>".

(** [writeSelection] (lines 117-138). *)
Definition writeSelection (selectedRange : Range)
    (canSmartCopyOrDelete : bool) (frame : Frame)
    (shouldSerialize : ShouldSerializeSelectedTextForDataTransfer)
    (p : Pasteboard) (w : World) : World :=
  let md := newQMimeData in
  let text :=
    match shouldSerialize with
    | IncludeImageAltTextForDataTransfer => selectedTextForDataTransfer frame
    | DefaultSelectedTextType => selectedText frame
    end in
  let text := replace 160 32 text in
  let md := setText text md in
  let markup := createMarkup selectedRange in
  let md :=
    if Q_OS_MAC
    then setData text_html
           (utf8_fromUnicode (macMarkupPrefix ++ markup ++ macMarkupSuffix))
           md
    else setHtml markup md in
  let md := if canSmartCopyOrDelete then setData smartpaste [] md else md in
  setMimeData (Some md) (targetMode p) w.

(** [canSmartReplace] (lines 140-147); [mimeData()] without an argument is
    the [Clipboard] mode. *)
Definition canSmartReplace (p : Pasteboard) (w : World) : bool :=
  if hasFormat smartpaste (mimeData Clipboard w) then true else false.

(** [read(PasteboardPlainText&)] (lines 149-154): the value stored in
    [text.text]. *)
Definition read (p : Pasteboard) (w : World) : String :=
  clipboardText (targetMode p) w.

(** [documentFragment] (lines 156-182): the returned fragment (null is
    [None]) and the final value of [chosePlainText]. *)
Definition documentFragment (frame : Frame) (context : Range)
    (allowPlainText : bool) (p : Pasteboard) (w : World)
  : option DocumentFragment * bool :=
  let mimeData := mimeData (targetMode p) w in
  let chosePlainText := false in
  let plainTextPath :=
    if allowPlainText && hasText mimeData then
      let chosePlainText := true in
      match createFragmentFromText context (text mimeData) with
      | Some fragment => (Some fragment, chosePlainText)
      | None => (None, chosePlainText)
      end
    else (None, chosePlainText) in
  if hasHtml mimeData then
    let html := html mimeData in
    if negb (isEmpty html) then
      match createFragmentFromMarkup frame html with
      | Some fragment => (Some fragment, chosePlainText)
      | None => plainTextPath
      end
    else plainTextPath
  else plainTextPath.

(** [writePlainText] (lines 184-195). *)
Definition writePlainText (text : String)
    (smartReplaceOption : SmartReplaceOption) (p : Pasteboard) (w : World)
  : World :=
  let md := newQMimeData in
  let qtext := text in
  let qtext := replace 160 32 qtext in
  let md := setText qtext md in
  let md :=
    match smartReplaceOption with
    | CanSmartReplace => setData smartpaste [] md
    | CannotSmartReplace => md
    end in
  setMimeData (Some md) (targetMode p) w.

(** [write(const PasteboardURL&)] (lines 197-208); the arguments are
    [pasteboardURL.url] and [pasteboardURL.url.string()]. *)
Definition writeURL (url : QUrl) (urlString : String) (p : Pasteboard)
    (w : World) : World :=
  let md := newQMimeData in
  let md := setText urlString md in
  let md := setUrls [url] md in
  setMimeData (Some md) (targetMode p) w.

(** What [writeImage] looks at in its element: whether the renderer is an
    image renderer, its cached image, whether loading failed, and the
    bitmap of the current frame. *)
Record CachedImage : Type := mkCachedImage {
  errorOccurred : bool;
  nativeImageForCurrentFrame : option QPixmap
}.
Record Element : Type := mkElement {
  rendererIsImage : bool;
  cachedImage : option CachedImage
}.

(** [writeImage] (lines 210-228). *)
Definition writeImage (node : Element) (p : Pasteboard) (w : World) : World :=
  if negb (rendererIsImage node) then w
  else
    match cachedImage node with
    | None => w
    | Some image =>
        if errorOccurred image then w
        else
          match nativeImageForCurrentFrame image with
          | None => w
          | Some pixmap => setPixmap pixmap Clipboard w
          end
    end.

(** The condition of the [ASSERT] in [readData] (line 232). *)
Definition bindingsExclusive (p : Pasteboard) : bool :=
  negb (match m_readableData p, m_writableData p with
        | Some _, Some _ => true
        | _, _ => false
        end).

(** [readData] (lines 230-234), as a release build runs it. *)
Definition readData (p : Pasteboard) : option QMimeData :=
  match m_readableData p with
  | Some d => Some d
  | None => m_writableData p
  end.

(** [hasData] (lines 236-242). *)
Definition hasData (p : Pasteboard) : bool :=
  match readData p with
  | None => false
  | Some data => 0 <? Z.of_nat (length (formats data))
  end.

(** [clear(const String&)] (lines 244-258). *)
Definition clearType (type : String) (p : Pasteboard) (w : World)
  : Pasteboard * World :=
  let '(p, w) :=
    match m_writableData p with
    | Some d =>
        let d := removeFormat type d in
        if isEmpty (formats d) then
          let w := if isForDragAndDrop p then delete (Some d) w else w in
          (set_writableData None p, w)
        else (set_writableData (Some d) p, w)
    | None => (p, w)
    end in
  let w :=
    if isForCopyAndPaste p
    then setMimeData (m_writableData p) Clipboard w
    else w in
  (p, w).

(** [clear()] (lines 260-269). *)
Definition clear (p : Pasteboard) (w : World) : Pasteboard * World :=
  let w :=
    if isForCopyAndPaste p then setMimeData None Clipboard w
    else delete (m_writableData p) w in
  (set_writableData None p, w).

(** [readString] (lines 271-286). *)
Definition readString (type : String) (p : Pasteboard) : String :=
  match readData p with
  | None => []
  | Some data_ =>
      if isHtmlMimeType type && hasHtml data_ then html data_
      else if isTextMimeType type && hasText data_ then text data_
      else
        let rawData := data type data_ in
        let stringData := utf16_toUnicode rawData in
        stringData
  end.

(** [writeString] (lines 288-302). *)
Definition writeString (type : String) (data_ : String) (p : Pasteboard)
  : Pasteboard :=
  let d :=
    match m_writableData p with
    | Some d => d
    | None => newQMimeData
    end in
  let d :=
    if isTextMimeType type then setText data_ d
    else if isHtmlMimeType type then setHtml data_ d
    else
      let array := characters16Bytes data_ in
      setData type array d in
  set_writableData (Some d) p.

(** [ListHashSet::add]: appends unless already present. *)
Definition ListHashSet_add (result : list String) (x : String)
  : list String :=
  if existsb (equal x) result then result else result ++ [x].

(** [types] (lines 304-317). *)
Definition types (p : Pasteboard) : list String :=
  match readData p with
  | None => []
  | Some data_ => fold_left ListHashSet_add (formats data_) []
  end.

(** The loop of [readFilenames] (lines 328-333) over the URLs not yet
    visited. *)
Fixpoint readFilenames_loop (urls : list QUrl) (fileList : list String)
  : list String :=
  match urls with
  | [] => fileList
  | url :: rest =>
      if negb (equal (url_scheme url) (QLatin1String "file"))
      then readFilenames_loop rest fileList
      else readFilenames_loop rest (fileList ++ [url_toLocalFile url])
  end.

(** [readFilenames] (lines 319-336). *)
Definition readFilenames (p : Pasteboard) : list String :=
  match readData p with
  | None => []
  | Some data_ => readFilenames_loop (urls data_) []
  end.

(** [writePasteboard] (lines 345-350). *)
Definition writePasteboard (sourcePasteboard : Pasteboard) (w : World)
  : World :=
  setMimeData (clipboardData sourcePasteboard) Clipboard w.

(** ** Sequences of operations *)

(** One call on a pasteboard instance that can change the instance or the
    host.  The instance and the host are stepped as holding separate
    buffers, which is what the code does until a call hands the instance's
    buffer to the clipboard ([handsBufferToHost], [keepsBufferPrivate]). *)
Inductive Operation : Type :=
  | OpWriteSelection (selectedRange : Range) (canSmartCopyOrDelete : bool)
      (frame : Frame)
      (shouldSerialize : ShouldSerializeSelectedTextForDataTransfer)
  | OpWritePlainText (text : String) (option : SmartReplaceOption)
  | OpWriteURL (url : QUrl) (urlString : String)
  | OpWriteImage (node : Element)
  | OpClearType (type : String)
  | OpClear
  | OpWriteString (type : String) (data_ : String)
  | OpWritePasteboard (sourcePasteboard : Pasteboard).

Definition step (op : Operation) (s : Pasteboard * World)
  : Pasteboard * World :=
  let '(p, w) := s in
  match op with
  | OpWriteSelection r c f sh => (p, writeSelection r c f sh p w)
  | OpWritePlainText t o => (p, writePlainText t o p w)
  | OpWriteURL u us => (p, writeURL u us p w)
  | OpWriteImage n => (p, writeImage n p w)
  | OpClearType t => clearType t p w
  | OpClear => clear p w
  | OpWriteString t d => (writeString t d p, w)
  | OpWritePasteboard src => (p, writePasteboard src w)
  end.

Definition run (ops : list Operation) (s : Pasteboard * World)
  : Pasteboard * World :=
  fold_left (fun s op => step op s) ops s.

(** The call passes the instance's own buffer to [setMimeData], so that the
    clipboard owns the object [m_writableData] still points to:
    [clear(type)] on a copy-and-paste instance whose buffer is not empty
    after the removal (line 256), and [writePasteboard] when the instance
    holds a buffer, since the source may be the instance itself
    (line 348). *)
Definition handsBufferToHost (op : Operation) (p : Pasteboard) : bool :=
  match op with
  | OpClearType type =>
      isForCopyAndPaste p
      && match m_writableData p with
         | Some d => negb (isEmpty (formats (removeFormat type d)))
         | None => false
         end
  | OpWritePasteboard _ =>
      match m_writableData p with
      | Some _ => true
      | None => false
      end
  | _ => false
  end.

(** No call of the sequence hands the instance's buffer to the clipboard:
    the instance and the host never share a [QMimeData], and no write to
    the clipboard frees a buffer the instance points to. *)
Fixpoint keepsBufferPrivate (ops : list Operation) (s : Pasteboard * World)
  : bool :=
  match ops with
  | [] => true
  | op :: rest =>
      negb (handsBufferToHost op (fst s))
      && keepsBufferPrivate rest (step op s)
  end.

End Model.

(** ** A concrete host for the examples *)

(** A URL reduced to its scheme and its local path. *)
Record SampleUrl : Type := mkSampleUrl {
  sampleScheme : QString;
  samplePath : QString
}.

(** A little-endian X11 build.  The codecs of the example host treat every
    byte as one Latin-1 character, and its URI lists are empty.  A string
    is held as 8-bit characters when all its code units are below 256, and
    nothing readable lies behind a character buffer. *)
Definition x11Host : QtPlatform := {|
  QUrl := SampleUrl;
  QPixmap := unit;
  url_scheme := sampleScheme;
  url_toLocalFile := samplePath;
  urls_fromUriList := fun _ => [];
  urls_toUriList := fun _ => [];
  urls_toText := fun l => concat (map samplePath l);
  utf8_toUnicode := fun b => b;
  utf8_fromUnicode := fun s => s;
  html_toUnicode := fun b => b;
  bigEndianHost := false;
  Q_OS_MAC := false;
  is8Bit := forallb (fun c => c <? 256);
  memoryAfter := fun _ => []
|}.

(** The same host with the other byte order. *)
Definition bigEndianX11Host : QtPlatform := {|
  QUrl := SampleUrl;
  QPixmap := unit;
  url_scheme := sampleScheme;
  url_toLocalFile := samplePath;
  urls_fromUriList := fun _ => [];
  urls_toUriList := fun _ => [];
  urls_toText := fun l => concat (map samplePath l);
  utf8_toUnicode := fun b => b;
  utf8_fromUnicode := fun s => s;
  html_toUnicode := fun b => b;
  bigEndianHost := true;
  Q_OS_MAC := false;
  is8Bit := forallb (fun c => c <? 256);
  memoryAfter := fun _ => []
|}.

(** An editing layer whose frames are their two selected texts, whose
    ranges are their markup, and whose fragments are the text they were
    built from; an empty plain text yields no fragment. *)
Definition sampleEditing : EditingLayer := {|
  Frame := String * String;
  Range := String;
  DocumentFragment := bool * String;
  selectedText := fst;
  selectedTextForDataTransfer := snd;
  createMarkup := fun r => r;
  createFragmentFromMarkup := fun _ markup => Some (true, markup);
  createFragmentFromText := fun _ text =>
    match text with [] => None | _ :: _ => Some (false, text) end
|}.

Definition emptyWorld {qt : QtPlatform} : World := mkWorld [] [] [].

(** The text "hello", U+00A0, "world" and the text "hello world". *)
Definition hello_nbsp_world : String :=
  QLatin1String "hello" ++ [160] ++ QLatin1String "world".
Definition hello_world : String := QLatin1String "hello world".

(** A string with a code unit above 255, which the example host holds as
    16-bit units: the euro sign, then "note". *)
Definition euro_note : String := 8364 :: QLatin1String "note".

(** Two custom type identifiers, a parameterised plain-text identifier and
    a file URL. *)
Definition note_type : String := QLatin1String "application/x-note".
Definition other_type : String := QLatin1String "application/x-other".
Definition text_plain_utf8 : String :=
  QLatin1String "text/plain;charset=utf-8".
Definition file_url : SampleUrl :=
  mkSampleUrl (QLatin1String "file") (QLatin1String "/tmp/a").

(** ** What the claims are stated with *)

(** [type] is [name] itself or [name] followed by a [;] parameter clause. *)
Definition matchesType (name type : String) : Prop :=
  type = name \/ exists rest, type = name ++ QLatin1String ";" ++ rest.

(** The buffer [writeString] writes into: the writable binding, or a fresh
    [QMimeData] when there is none yet. *)
Definition writableOrNew {qt : QtPlatform} (p : Pasteboard) : QMimeData :=
  match m_writableData p with
  | Some d => d
  | None => newQMimeData
  end.

(** Every format occurs once in the buffer, as in every [QMimeData] filled
    through its setters. *)
Definition uniqueFormats {qt : QtPlatform} (md : QMimeData) : Prop :=
  NoDup (formats md).

(** The byte order of the host, as the codec names it. *)
Definition hostEndianness {qt : QtPlatform} : DataEndianness :=
  if bigEndianHost then BigEndianness else LittleEndianness.

(** The writable binding, when there is one, holds every format once. *)
Definition bufferUnique {qt : QtPlatform} (p : Pasteboard) : Prop :=
  match m_writableData p with
  | Some d => uniqueFormats d
  | None => True
  end.

(** [data.length() * 2] fits the [int] it is passed as: fewer than 2^30
    code units. *)
Definition fitsInt (s : String) : Prop :=
  Z.of_nat (length s) < 1073741824.

(** [s] does not start with a byte order mark, in either byte order. *)
Definition noLeadingByteOrderMark (s : String) : Prop :=
  forall c rest,
    s = c :: rest -> c <> ByteOrderMark /\ c <> ByteOrderSwapped.

(** The file-scheme test of [readFilenames]. *)
Definition isFileUrl {qt : QtPlatform} (url : QUrl) : bool :=
  equal (url_scheme url) (QLatin1String "file").

(** ** What the further properties are stated with *)

(** The format under which [writeString] stores a payload of the given
    type: the two privileged names, or the identifier itself. *)
Definition storedFormat (type : String) : QString :=
  if isTextMimeType type then text_plain
  else if isHtmlMimeType type then text_html
  else type.

(** The operation is a call of [writeString]. *)
Definition isWriteString {qt : QtPlatform} {editing : EditingLayer}
    (op : Operation) : bool :=
  match op with
  | OpWriteString _ _ => true
  | _ => false
  end.

(** Every format of the buffer is one [writeString] stores under. *)
Definition canonicalFormats {qt : QtPlatform} (md : QMimeData) : Prop :=
  Forall (fun f => storedFormat f = f) (formats md).

(** The writable binding, when there is one, is not empty, holds every
    format once, and only formats [writeString] stores under. *)
Definition bufferCanonical {qt : QtPlatform} (p : Pasteboard) : Prop :=
  match m_writableData p with
  | Some d => formats d <> [] /\ uniqueFormats d /\ canonicalFormats d
  | None => True
  end.

(** The clipboard an instance does not target. *)
Definition otherMode (mode : Mode) : Mode :=
  match mode with
  | Clipboard => Selection
  | Selection => Clipboard
  end.

(** What the smart-replace option asks for. *)
Definition wantsSmartReplace (option : SmartReplaceOption) : bool :=
  match option with
  | CanSmartReplace => true
  | CannotSmartReplace => false
  end.

(** The text [writeSelection] takes from the frame. *)
Definition serializedText {editing : EditingLayer} (frame : Frame)
    (shouldSerialize : ShouldSerializeSelectedTextForDataTransfer) : String :=
  match shouldSerialize with
  | IncludeImageAltTextForDataTransfer => selectedTextForDataTransfer frame
  | DefaultSelectedTextType => selectedText frame
  end.

(** The operation works on the writable binding: [writeString],
    [clear(type)] or [clear()]. *)
Definition isBufferOperation {qt : QtPlatform} {editing : EditingLayer}
    (op : Operation) : bool :=
  match op with
  | OpWriteString _ _ | OpClearType _ | OpClear => true
  | _ => false
  end.

(** The write puts its entries on the clipboard the instance targets,
    whatever that clipboard held, and changes nothing else. *)
Definition replacesTargetOnly {qt : QtPlatform} (p : Pasteboard)
    (write : World -> World) : Prop :=
  forall w w2,
    mimeData (otherMode (targetMode p)) (write w)
    = mimeData (otherMode (targetMode p)) w
    /\ deleted (write w) = deleted w
    /\ mimeData (targetMode p) (write w)
       = mimeData (targetMode p) (write w2).

(** ** Strings *)

Lemma equal_refl (a : String) : equal a a = true.
Proof.
  induction a as [|x a IH]; simpl; [reflexivity|].
  now rewrite Z.eqb_refl, IH.
Qed.

Lemma equal_eq (a b : String) : equal a b = true <-> a = b.
Proof.
  split.
  - revert b; induction a as [|x a IH]; intros [|y b] H; simpl in H;
      try discriminate; [reflexivity|].
    apply andb_true_iff in H as [Hx Hr].
    apply Z.eqb_eq in Hx. apply IH in Hr. now subst.
  - intros ->. apply equal_refl.
Qed.

Lemma equal_neq (a b : String) : equal a b = false <-> a <> b.
Proof.
  rewrite <- equal_eq. destruct (equal a b); intuition congruence.
Qed.

Lemma startsWith_app (s prefix : String) :
  startsWith s prefix = true <-> exists rest, s = prefix ++ rest.
Proof.
  revert s; induction prefix as [|c prefix IH]; intros s; simpl.
  - split; [intros _; now exists s | reflexivity].
  - destruct s as [|x s].
    + split; [discriminate | intros [rest H]; discriminate].
    + rewrite andb_true_iff, Z.eqb_eq, IH. split.
      * intros [-> [rest ->]]. now exists rest.
      * intros [rest H]. injection H as -> ->. split; [reflexivity|].
        now exists rest.
Qed.

Section Proofs.

Context {qt : QtPlatform} {editing : EditingLayer}.

(** ** The privileged type identifiers *)

Lemma isTextMimeType_matches (type : String) :
  isTextMimeType type = true <-> matchesType text_plain type.
Proof.
  unfold isTextMimeType, matchesType. rewrite orb_true_iff, equal_eq.
  rewrite startsWith_app. reflexivity.
Qed.

Lemma isHtmlMimeType_matches (type : String) :
  isHtmlMimeType type = true <-> matchesType text_html type.
Proof.
  unfold isHtmlMimeType, matchesType. rewrite orb_true_iff, equal_eq.
  rewrite startsWith_app. reflexivity.
Qed.

(** No identifier is both plain text and HTML: the two names differ at
    their sixth character. *)
Lemma text_and_html_disjoint (type : String) :
  isTextMimeType type = true -> isHtmlMimeType type = false.
Proof.
  intros Ht. destruct (isHtmlMimeType type) eqn:Hh; [exfalso|reflexivity].
  apply isTextMimeType_matches in Ht. apply isHtmlMimeType_matches in Hh.
  destruct Ht as [-> | [r ->]]; destruct Hh as [H | [r' H]]; discriminate H.
Qed.

(** ** [QMimeData] *)

Lemma getData_None (f : QString) (md : QMimeData) :
  getData f md = None <-> ~ In f (formats md).
Proof.
  induction md as [|[g v] md IH]; simpl.
  - tauto.
  - destruct (equal g f) eqn:E.
    + apply equal_eq in E. subst. split; [discriminate | tauto].
    + apply equal_neq in E. rewrite IH. tauto.
Qed.

Lemma getData_app (f : QString) (md md' : QMimeData) :
  getData f (md ++ md') =
  match getData f md with
  | Some v => Some v
  | None => getData f md'
  end.
Proof.
  induction md as [|[g v] md IH]; simpl; [reflexivity|].
  now destruct (equal g f).
Qed.

Lemma formats_removeFormat_incl (f g : QString) (md : QMimeData) :
  In g (formats (removeFormat f md)) -> In g (formats md).
Proof.
  induction md as [|[h v] md IH]; simpl; [tauto|].
  destruct (equal h f); simpl; tauto.
Qed.

Lemma removeFormat_unique (f : QString) (md : QMimeData) :
  uniqueFormats md -> uniqueFormats (removeFormat f md).
Proof.
  unfold uniqueFormats.
  induction md as [|[h v] md IH]; simpl; intros Hnd; [assumption|].
  inversion Hnd as [|? ? Hnotin Hrest]; subst.
  destruct (equal h f); simpl; [assumption|].
  constructor; [|now apply IH].
  intros Hin. apply Hnotin. eapply formats_removeFormat_incl. exact Hin.
Qed.

Lemma removeFormat_absent (f : QString) (md : QMimeData) :
  uniqueFormats md -> ~ In f (formats (removeFormat f md)).
Proof.
  unfold uniqueFormats.
  induction md as [|[h v] md IH]; simpl; intros Hnd; [tauto|].
  inversion Hnd as [|? ? Hnotin Hrest]; subst.
  destruct (equal h f) eqn:E.
  - apply equal_eq in E. now subst.
  - apply equal_neq in E. simpl. intros [H | H]; [congruence|].
    now apply IH.
Qed.

Lemma formats_setVariant (f : QString) (v : QVariant) (md : QMimeData) :
  formats (setVariant f v md) = formats (removeFormat f md) ++ [f].
Proof.
  unfold setVariant, formats. now rewrite map_app.
Qed.

Lemma setVariant_unique (f : QString) (v : QVariant) (md : QMimeData) :
  uniqueFormats md -> uniqueFormats (setVariant f v md).
Proof.
  intros Hnd. unfold uniqueFormats. rewrite formats_setVariant.
  apply NoDup_app.
  - apply (removeFormat_unique f md Hnd).
  - repeat constructor. simpl. tauto.
  - intros g Hin [<- | []]. now apply (removeFormat_absent f md Hnd).
Qed.

Lemma getData_setVariant_same (f : QString) (v : QVariant) (md : QMimeData) :
  uniqueFormats md -> getData f (setVariant f v md) = Some v.
Proof.
  intros Hnd. unfold setVariant. rewrite getData_app.
  pose proof (removeFormat_absent f md Hnd) as Habs.
  apply getData_None in Habs. rewrite Habs. simpl. now rewrite equal_refl.
Qed.

Lemma setData_unique (f : QString) (b : QByteArray) (md : QMimeData) :
  uniqueFormats md -> uniqueFormats (setData f b md).
Proof.
  intros Hnd. unfold setData.
  destruct (equal f text_uri_list); now apply setVariant_unique.
Qed.

(** ** The UTF-16 codec *)

Lemma mkQChar_bytes (c : UChar) :
  0 <= c -> mkQChar (Z.shiftr c 8) (Z.land c 255) = c.
Proof.
  intros Hc. unfold mkQChar.
  rewrite Z.shiftr_div_pow2 by lia.
  change 255 with (Z.ones 8). rewrite Z.land_ones by lia.
  change (2 ^ 8) with 256.
  pose proof (Z.div_mod c 256). lia.
Qed.

Lemma highByte_range (c : UChar) : isUChar c -> 0 <= Z.shiftr c 8 < 256.
Proof.
  unfold isUChar. intros Hc. rewrite Z.shiftr_div_pow2 by lia.
  change (2 ^ 8) with 256. split.
  - apply Z.div_pos; lia.
  - apply Z.div_lt_upper_bound; lia.
Qed.

Lemma lowByte_range (c : UChar) : 0 <= Z.land c 255 < 256.
Proof.
  change 255 with (Z.ones 8). rewrite Z.land_ones by lia.
  change (2 ^ 8) with 256. apply Z.mod_pos_bound. lia.
Qed.

(** Swapping the bytes of the unit [lo * 256 + hi] gives [hi * 256 + lo]. *)
Lemma byteSwapped_mkQChar (lo hi : Z) :
  0 <= lo < 256 -> 0 <= hi < 256 ->
  byteSwapped (mkQChar lo hi) = mkQChar hi lo.
Proof.
  intros Hlo Hhi. unfold byteSwapped, mkQChar.
  assert (Hs : Z.shiftr (lo * 256 + hi) 8 = lo).
  { rewrite Z.shiftr_div_pow2 by lia. change (2 ^ 8) with 256.
    rewrite Z.div_add_l by lia. rewrite Z.div_small by lia. lia. }
  assert (Hl : Z.land (lo * 256 + hi) 255 = hi).
  { change 255 with (Z.ones 8). rewrite Z.land_ones by lia.
    change (2 ^ 8) with 256. rewrite Z.add_comm, Z.mod_add by lia.
    apply Z.mod_small. lia. }
  rewrite Hs, Hl. rewrite Z.shiftl_mul_pow2 by lia. change (2 ^ 8) with 256.
  rewrite Z.add_comm.
  assert (Hd : Z.land lo (hi * 256) = 0).
  { apply Z.bits_inj'. intros n Hn. rewrite Z.land_spec, Z.bits_0.
    destruct (Z_lt_ge_dec n 8) as [Hlt | Hge].
    - replace (hi * 256) with (Z.shiftl hi 8)
        by (rewrite Z.shiftl_mul_pow2 by lia; reflexivity).
      rewrite Z.shiftl_spec_low by lia. apply andb_false_r.
    - assert (Hb : Z.testbit lo n = false).
      { destruct (Z.eq_dec lo 0) as [-> | Hnz]; [apply Z.bits_0|].
        apply Z.bits_above_log2; [lia|].
        assert (Z.log2 lo < 8) by (apply Z.log2_lt_pow2; lia). lia. }
      now rewrite Hb. }
  rewrite <- Z.lxor_lor by exact Hd.
  symmetry. apply Z.add_nocarry_lxor. exact Hd.
Qed.

Lemma utf16Bytes_length (s : String) :
  length (utf16Bytes s) = (2 * length s)%nat.
Proof.
  unfold utf16Bytes, unitBytes.
  induction s as [|c s IH]; [reflexivity|].
  cbn [flat_map]. rewrite length_app, IH.
  destruct bigEndianHost; simpl; lia.
Qed.

(** For a string held as 16-bit units whose byte count fits an [int], the
    array holds exactly the bytes of its code units. *)
Lemma characters16Bytes_utf16 (s : String) :
  is8Bit s = false -> fitsInt s -> characters16Bytes s = utf16Bytes s.
Proof.
  unfold fitsInt. intros H16 Hfit.
  unfold characters16Bytes, memoryAtCharacters16, byteCount. rewrite H16.
  assert (Hn : 0 <= Z.of_nat (length s)) by lia.
  rewrite Z.mod_small by lia.
  unfold toInt, QByteArray_fromData.
  destruct (Z.of_nat (length s) * 2 <? 2147483648) eqn:E;
    [|apply Z.ltb_ge in E; lia].
  destruct (Z.of_nat (length s) * 2 <? 0) eqn:E0;
    [apply Z.ltb_lt in E0; lia|].
  replace (Z.to_nat (Z.of_nat (length s) * 2))
    with (length (utf16Bytes s) + 0)%nat
    by (rewrite utf16Bytes_length; lia).
  rewrite firstn_app_2. simpl. apply app_nil_r.
Qed.

(** Once the header is done and the byte order is the host's, the codec
    reads back the units whose bytes it is given. *)
Lemma convertToUnicode_host (s result : String) :
  wellFormed s ->
  convertToUnicode (utf16Bytes s) hostEndianness None true result
  = result ++ s.
Proof.
  unfold wellFormed, utf16Bytes, hostEndianness, unitBytes.
  intros Hs. revert result.
  induction Hs as [|c s Hc Hs IH]; intros result; simpl.
  - now rewrite app_nil_r.
  - assert (Hc0 : 0 <= c) by (unfold isUChar in Hc; lia).
    destruct bigEndianHost; simpl; rewrite (mkQChar_bytes c Hc0), IH;
      now rewrite <- app_assoc.
Qed.

(** A string that does not start with U+FEFF or U+FFFE survives the trip
    through the bytes of its code units. *)
Lemma utf16_roundtrip (s : String) :
  wellFormed s ->
  noLeadingByteOrderMark s ->
  utf16_toUnicode (utf16Bytes s) = s.
Proof.
  intros Hs Hfirst. destruct s as [|c s]; [reflexivity|].
  destruct (Hfirst c s eq_refl) as [Hbom Hswap].
  inversion Hs as [|? ? Hc Hrest]; subst.
  pose proof (convertToUnicode_host s [c] Hrest) as Htail.
  assert (Hc0 : 0 <= c) by (unfold isUChar in Hc; lia).
  pose proof (highByte_range c Hc) as Hhi.
  pose proof (lowByte_range c) as Hlo.
  pose proof (mkQChar_bytes c Hc0) as Hmk.
  unfold utf16_toUnicode, utf16Bytes. simpl flat_map.
  unfold hostEndianness in Htail. unfold unitBytes at 1.
  unfold utf16Bytes in Htail.
  destruct bigEndianHost eqn:Hbe; simpl.
  - rewrite Hmk.
    apply Z.eqb_neq in Hbom. apply Z.eqb_neq in Hswap.
    rewrite Hswap, Hbom, Hbe. exact Htail.
  - assert (Hne1 : mkQChar (Z.land c 255) (Z.shiftr c 8) <> ByteOrderSwapped).
    { unfold mkQChar, ByteOrderSwapped, ByteOrderMark in *. lia. }
    assert (Hne2 : mkQChar (Z.land c 255) (Z.shiftr c 8) <> ByteOrderMark).
    { unfold mkQChar, ByteOrderSwapped, ByteOrderMark in *. lia. }
    apply Z.eqb_neq in Hne1. apply Z.eqb_neq in Hne2.
    rewrite Hne1, Hne2, Hbe.
    rewrite (byteSwapped_mkQChar _ _ Hlo Hhi), Hmk. exact Htail.
Qed.

(** ** What a sequence of operations preserves *)

Lemma step_readableData (op : Operation) (p : Pasteboard) (w : World) :
  m_readableData (fst (step op (p, w))) = m_readableData p.
Proof.
  destruct op; simpl; try reflexivity.
  - unfold clearType. destruct (m_writableData p) as [d|]; simpl;
      [|reflexivity].
    destruct (isEmpty (formats (removeFormat type d))); reflexivity.
Qed.

Lemma step_bufferUnique (op : Operation) (p : Pasteboard) (w : World) :
  bufferUnique p -> bufferUnique (fst (step op (p, w))).
Proof.
  unfold bufferUnique. intros Hu. destruct op; simpl; try exact Hu.
  - unfold clearType. destruct (m_writableData p) as [d|] eqn:Hd; simpl.
    + destruct (isEmpty (formats (removeFormat type d))); simpl;
        [exact I | now apply removeFormat_unique].
    + now rewrite Hd.
  - exact I.
  - assert (Hb : uniqueFormats (writableOrNew p)).
    { unfold writableOrNew. destruct (m_writableData p); [exact Hu|].
      constructor. }
    fold (writableOrNew p).
    destruct (isTextMimeType type); [now apply setVariant_unique|].
    destruct (isHtmlMimeType type); [now apply setVariant_unique|].
    now apply setData_unique.
Qed.

Lemma run_invariants (ops : list Operation) (p : Pasteboard) (w : World) :
  bufferUnique p ->
  m_readableData (fst (run ops (p, w))) = m_readableData p
  /\ bufferUnique (fst (run ops (p, w))).
Proof.
  revert p w. induction ops as [|op ops IH]; intros p w Hu.
  - split; [reflexivity | exact Hu].
  - change (run (op :: ops) (p, w)) with (run ops (step op (p, w))).
    destruct (step op (p, w)) as [p' w'] eqn:Hstep.
    pose proof (step_readableData op p w) as Hr.
    pose proof (step_bufferUnique op p w Hu) as Hu'.
    rewrite Hstep in Hr, Hu'. simpl in Hr, Hu'.
    destruct (IH p' w' Hu') as [IHr IHu].
    split; [now rewrite IHr | exact IHu].
Qed.

(** With no readable binding the condition asserted by [readData] holds. *)
Lemma bindingsExclusive_without_readable (p : Pasteboard) :
  m_readableData p = None -> bindingsExclusive p = true.
Proof.
  unfold bindingsExclusive. now intros ->.
Qed.

(** Every construction variant starts without a writable binding. *)
Lemma create_bindingsExclusive (readableClipboard : option QMimeData)
    (isDragAndDrop : bool) :
  bindingsExclusive (create readableClipboard isDragAndDrop) = true.
Proof.
  unfold bindingsExclusive, create, Pasteboard_new. simpl.
  now destruct readableClipboard.
Qed.

(** Every operation other than [writeString] keeps the two bindings
    exclusive. *)
Lemma step_bindingsExclusive (op : Operation) (p : Pasteboard) (w : World) :
  (forall type data_, op <> OpWriteString type data_) ->
  bindingsExclusive p = true ->
  bindingsExclusive (fst (step op (p, w))) = true.
Proof.
  intros Hop Hex. destruct op; simpl; try exact Hex.
  - unfold clearType. destruct (m_writableData p) as [d|] eqn:Hd; simpl.
    + unfold bindingsExclusive in *. rewrite Hd in Hex.
      destruct (m_readableData p) eqn:Hr; [discriminate|].
      destruct (isEmpty (formats (removeFormat type d))); simpl;
        now rewrite Hr.
    + exact Hex.
  - unfold bindingsExclusive. simpl. now destruct (m_readableData p).
  - now contradiction (Hop type data_).
Qed.

(** ** The claims *)

(** C1 (the code breaks it): an instance never holds a readable and a
    writable binding at once.  [writeString] creates the writable binding
    without looking at the readable one: on an instance constructed over a
    drag payload the two bindings are exclusive before the call and both
    present after it, so the condition asserted in [readData] is false. *)
Theorem writeString_on_readable_instance
    (payload : QMimeData) (type data_ : String) :
  let p := createForDragAndDropWith (Some payload) in
  bindingsExclusive p = true
  /\ bindingsExclusive (writeString type data_ p) = false
  /\ m_readableData (writeString type data_ p) = Some payload
  /\ m_writableData (writeString type data_ p) <> None.
Proof.
  intros p. unfold p, createForDragAndDropWith, create, Pasteboard_new.
  unfold writeString, bindingsExclusive, set_writableData. simpl.
  repeat split. discriminate.
Qed.

(** C2 (amended): on an instance made by [createPrivate], after
    [writePlainText] of "hello", U+00A0, "world" with smart replace enabled,
    [readString("text/plain")] on that instance returns the empty string:
    the text went to the host clipboard and the instance has no binding.
    The host clipboard's text is "hello world", an instance made afterwards
    by [createForCopyAndPaste] reads it with [readString("text/plain")],
    and [canSmartReplace] returns true. *)
Theorem private_writePlainText_scenario (w : World) :
  let s := run [OpWritePlainText hello_nbsp_world CanSmartReplace]
             (createPrivate, w) in
  readString text_plain (fst s) = []
  /\ m_readableData (fst s) = None
  /\ m_writableData (fst s) = None
  /\ clipboardText Clipboard (snd s) = hello_world
  /\ readString text_plain (createForCopyAndPaste (snd s)) = hello_world
  /\ canSmartReplace (fst s) (snd s) = true.
Proof.
  intros s.
  assert (Hs : s = (createPrivate,
                    mkWorld [(text_plain, VString hello_world);
                             (smartpaste, VByteArray [])]
                      (hostSelection w) (deleted w))) by reflexivity.
  rewrite Hs. simpl fst. simpl snd.
  split; [reflexivity|]. split; [reflexivity|]. split; [reflexivity|].
  split; [reflexivity|]. split; reflexivity.
Qed.

(** C3 (amended): on an instance constructed without a readable binding,
    after any sequence of operations that never hands its buffer to the
    clipboard, for every type identifier [type] that is neither plain text
    nor HTML nor "text/uri-list" and every string [s] that is held as
    16-bit code units, has fewer than 2^30 of them and does not start with
    U+FEFF or U+FFFE, [writeString(type, s)] stores the code units of [s],
    two bytes each in the byte order of the host, and [readString(type)]
    then returns [s]. *)
Theorem writeString_readString_roundtrip
    (isDragAndDrop : bool) (ops : list Operation) (w : World)
    (type s : String) :
  keepsBufferPrivate ops (create None isDragAndDrop, w) = true ->
  isTextMimeType type = false ->
  isHtmlMimeType type = false ->
  type <> text_uri_list ->
  wellFormed s ->
  is8Bit s = false ->
  fitsInt s ->
  noLeadingByteOrderMark s ->
  let p := fst (run ops (create None isDragAndDrop, w)) in
  m_writableData (writeString type s p)
  = Some (setVariant type (VByteArray (utf16Bytes s)) (writableOrNew p))
  /\ length (utf16Bytes s) = (2 * length s)%nat
  /\ readString type (writeString type s p) = s.
Proof.
  intros _ Htext Hhtml Huri Hwf H16 Hfit Hbom p.
  destruct (run_invariants ops (create None isDragAndDrop) w I)
    as [Hread Huniq].
  fold p in Hread, Huniq. simpl in Hread.
  assert (Hb : uniqueFormats (writableOrNew p)).
  { unfold writableOrNew. unfold bufferUnique in Huniq.
    destruct (m_writableData p); [exact Huniq | constructor]. }
  apply equal_neq in Huri.
  assert (Hw : m_writableData (writeString type s p)
               = Some (setVariant type (VByteArray (utf16Bytes s))
                         (writableOrNew p))).
  { unfold writeString. fold (writableOrNew p). rewrite Htext, Hhtml.
    unfold setData. rewrite Huri.
    rewrite (characters16Bytes_utf16 s H16 Hfit). reflexivity. }
  split; [exact Hw|]. split; [apply utf16Bytes_length|].
  unfold readString, readData.
  replace (m_readableData (writeString type s p)) with (@None QMimeData)
    by (symmetry; exact Hread).
  rewrite Hw, Htext, Hhtml. simpl.
  unfold data, retrieveData. rewrite (getData_setVariant_same _ _ _ Hb).
  now apply utf16_roundtrip.
Qed.

(** C4: [type] is dispatched as plain text exactly when it is "text/plain"
    or starts with "text/plain;", and as HTML exactly when it is
    "text/html" or starts with "text/html;", in [writeString] and in
    [readString] alike; the two cases exclude each other, and
    [readString("text/html; charset=utf-8")] returns the HTML entry just as
    [readString("text/html")] does. *)
Theorem privileged_type_dispatch (type : String) :
  (isTextMimeType type = true <-> matchesType text_plain type)
  /\ (isHtmlMimeType type = true <-> matchesType text_html type)
  /\ ~ (matchesType text_plain type /\ matchesType text_html type)
  /\ (forall s p,
        m_writableData (writeString type s p)
        = Some (if isTextMimeType type then setText s (writableOrNew p)
                else if isHtmlMimeType type then setHtml s (writableOrNew p)
                else setData type (characters16Bytes s) (writableOrNew p)))
  /\ (forall p d, readData p = Some d ->
        matchesType text_html type -> hasHtml d = true ->
        readString type p = html d)
  /\ (forall p d, readData p = Some d ->
        matchesType text_plain type -> hasText d = true ->
        readString type p = text d)
  /\ (forall p d, readData p = Some d ->
        ~ matchesType text_plain type -> ~ matchesType text_html type ->
        readString type p = utf16_toUnicode (data type d))
  /\ (forall p d, readData p = Some d -> hasHtml d = true ->
        readString (QLatin1String "text/html; charset=utf-8") p
        = readString (QLatin1String "text/html") p).
Proof.
  pose proof (isTextMimeType_matches type) as Ht.
  pose proof (isHtmlMimeType_matches type) as Hh.
  pose proof (text_and_html_disjoint type) as Hdis.
  split; [exact Ht|]. split; [exact Hh|]. split.
  { intros [Hp Hr]. apply Ht in Hp. apply Hh in Hr.
    rewrite (Hdis Hp) in Hr. discriminate. }
  split.
  { intros s p. unfold writeString. fold (writableOrNew p).
    destruct (isTextMimeType type); [reflexivity|].
    destruct (isHtmlMimeType type); reflexivity. }
  split.
  { intros p d Hd Hm Hhas. apply Hh in Hm.
    unfold readString. now rewrite Hd, Hm, Hhas. }
  split.
  { intros p d Hd Hm Hhas. apply Ht in Hm.
    unfold readString. rewrite Hd, (Hdis Hm), Hm, Hhas. reflexivity. }
  split.
  { intros p d Hd Hnp Hnr. unfold readString. rewrite Hd.
    destruct (isHtmlMimeType type); [now contradiction Hnr; apply Hh|].
    destruct (isTextMimeType type); [now contradiction Hnp; apply Ht|].
    reflexivity. }
  intros p d Hd Hhas. unfold readString. rewrite Hd.
  assert (H1 : isHtmlMimeType (QLatin1String "text/html; charset=utf-8")
               = true) by reflexivity.
  assert (H2 : isHtmlMimeType (QLatin1String "text/html") = true)
    by reflexivity.
  now rewrite H1, H2, Hhas.
Qed.


(** C6: on a copy-and-paste instance, [clear(type)] ends by passing the
    writable binding as it stands after the removal, null included, to
    [setMimeData] on the main clipboard: the host clipboard then holds
    exactly the entries of that binding (none when it is null), an
    instance that [createForCopyAndPaste] makes afterwards reads exactly
    those entries back, and the selection clipboard is unchanged. *)
Theorem clearType_pushes_to_host
    (type : String) (p : Pasteboard) (w : World) :
  isForCopyAndPaste p = true ->
  let s := clearType type p w in
  m_writableData (fst s)
  = match m_writableData p with
    | Some d =>
        if isEmpty (formats (removeFormat type d)) then None
        else Some (removeFormat type d)
    | None => None
    end
  /\ snd s = setMimeData (m_writableData (fst s)) Clipboard w
  /\ hostClipboard (snd s)
     = match m_writableData (fst s) with
       | Some d => d
       | None => newQMimeData
       end
  /\ formats (mimeData Clipboard (snd s))
     = match m_writableData (fst s) with
       | Some d => formats d
       | None => []
       end
  /\ readData (createForCopyAndPaste (snd s))
     = Some (match m_writableData (fst s) with
             | Some d => d
             | None => newQMimeData
             end)
  /\ hostSelection (snd s) = hostSelection w.
Proof.
  intros Hcp s. unfold s, clearType.
  assert (Hdnd : isForDragAndDrop p = false).
  { unfold isForCopyAndPaste in Hcp. unfold isForDragAndDrop.
    now destruct (m_isForDragAndDrop p). }
  rewrite Hdnd.
  destruct (m_writableData p) as [d|] eqn:Hw.
  - destruct (isEmpty (formats (removeFormat type d))) eqn:He;
      unfold isForCopyAndPaste, set_writableData in *; simpl;
      rewrite Hcp; simpl; repeat split.
  - rewrite Hcp. simpl. rewrite Hw. repeat split.
Qed.

(** ** Normalised text *)

Lemma replace_absent (before after : UChar) (s : QString) :
  before <> after -> ~ In before (replace before after s).
Proof.
  intros Hne. unfold replace. rewrite in_map_iff. intros [c [Hc _]].
  destruct (c =? before) eqn:E; [congruence|].
  apply Z.eqb_neq in E. congruence.
Qed.

Lemma replace_nth (before after : UChar) (s : QString) (i : nat) :
  (i < length s)%nat ->
  nth i (replace before after s) 0
  = if nth i s 0 =? before then after else nth i s 0.
Proof.
  revert i. induction s as [|c s IH]; intros i Hi; simpl in Hi; [lia|].
  destruct i as [|i]; simpl; [reflexivity|]. apply IH. lia.
Qed.

Lemma mimeData_setMimeData (src : option QMimeData) (mode : Mode)
    (w : World) :
  mimeData mode (setMimeData src mode w)
  = match src with Some d => d | None => newQMimeData end.
Proof.
  now destruct mode, src.
Qed.

(** C7: the text entry that [writePlainText] sets, and the one that
    [writeSelection] sets, is the input with every U+00A0 replaced by U+0020
    and every other code unit kept in place; it contains no U+00A0. *)
Theorem written_text_has_no_nbsp
    (text_ : String) (option : SmartReplaceOption)
    (selectedRange : Range) (canSmartCopyOrDelete : bool) (frame : Frame)
    (shouldSerialize : ShouldSerializeSelectedTextForDataTransfer)
    (p : Pasteboard) (w : World) :
  let plain := mimeData (targetMode p) (writePlainText text_ option p w) in
  let selection :=
    mimeData (targetMode p)
      (writeSelection selectedRange canSmartCopyOrDelete frame
         shouldSerialize p w) in
  let selected :=
    match shouldSerialize with
    | IncludeImageAltTextForDataTransfer => selectedTextForDataTransfer frame
    | DefaultSelectedTextType => selectedText frame
    end in
  getData text_plain plain = Some (VString (replace 160 32 text_))
  /\ text plain = replace 160 32 text_
  /\ ~ In 160 (text plain)
  /\ length (text plain) = length text_
  /\ (forall i, (i < length text_)%nat ->
        nth i (text plain) 0
        = if nth i text_ 0 =? 160 then 32 else nth i text_ 0)
  /\ getData text_plain selection = Some (VString (replace 160 32 selected))
  /\ text selection = replace 160 32 selected
  /\ ~ In 160 (text selection).
Proof.
  intros plain selection selected.
  assert (Hp : getData text_plain plain
               = Some (VString (replace 160 32 text_))).
  { unfold plain, writePlainText. rewrite mimeData_setMimeData.
    destruct option; reflexivity. }
  assert (Hs : getData text_plain selection
               = Some (VString (replace 160 32 selected))).
  { unfold selection, writeSelection. rewrite mimeData_setMimeData.
    fold selected.
    destruct Q_OS_MAC, canSmartCopyOrDelete; reflexivity. }
  assert (Htp : text plain = replace 160 32 text_)
    by (unfold text, retrieveData; now rewrite Hp).
  assert (Hts : text selection = replace 160 32 selected)
    by (unfold text, retrieveData; now rewrite Hs).
  split; [exact Hp|]. split; [exact Htp|]. rewrite Htp, Hts.
  split; [apply replace_absent; lia|].
  split; [apply length_map|].
  split; [intros i Hi; now apply replace_nth|].
  split; [exact Hs|]. split; [reflexivity|].
  apply replace_absent. lia.
Qed.

(** C8: [documentFragment] first tries the HTML of the target clipboard;
    when there is none, or it is empty, or no fragment comes out of it, and
    [allowPlainText] is set and the clipboard has text, the result is what
    [createFragmentFromText] makes of the text and [chosePlainText] is true;
    in every other case [chosePlainText] is false.  When neither path
    yields a fragment the result is null. *)
Theorem documentFragment_fallback
    (frame : Frame) (context : Range) (allowPlainText : bool)
    (p : Pasteboard) (w : World) :
  let md := mimeData (targetMode p) w in
  let rich :=
    if hasHtml md && negb (isEmpty (html md))
    then createFragmentFromMarkup frame (html md)
    else None in
  let plain := createFragmentFromText context (text md) in
  (forall fragment, rich = Some fragment ->
     documentFragment frame context allowPlainText p w
     = (Some fragment, false))
  /\ (rich = None -> allowPlainText = true -> hasText md = true ->
      documentFragment frame context allowPlainText p w = (plain, true))
  /\ (rich = None -> allowPlainText && hasText md = false ->
      documentFragment frame context allowPlainText p w = (None, false))
  /\ (fst (documentFragment frame context allowPlainText p w) = None <->
      rich = None /\ (allowPlainText && hasText md = false \/ plain = None)).
Proof.
  intros md rich plain. unfold documentFragment. fold md.
  unfold rich, plain.
  destruct (hasHtml md); simpl andb;
    [destruct (isEmpty (html md)); simpl negb; cbv iota;
     [|destruct (createFragmentFromMarkup frame (html md)) as [f|]]|];
    (destruct allowPlainText; simpl andb;
     [destruct (hasText md);
      [destruct (createFragmentFromText context (text md)) as [g|]|]|]);
    (repeat split; try congruence; try tauto; try discriminate;
     try (intros [? [? | ?]]; congruence);
     try (intros ? [= <-]; reflexivity)).
Qed.

(** ** File names *)

Lemma readFilenames_loop_filter (urls_ : list QUrl) (fileList : list String) :
  readFilenames_loop urls_ fileList
  = fileList ++ map url_toLocalFile (filter isFileUrl urls_).
Proof.
  revert fileList. induction urls_ as [|url rest IH]; intros fileList.
  - simpl. now rewrite app_nil_r.
  - cbn [readFilenames_loop filter]. unfold isFileUrl at 1.
    destruct (equal (url_scheme url) (QLatin1String "file"));
      cbn [negb map].
    + rewrite IH, <- app_assoc. reflexivity.
    + apply IH.
Qed.


(** C10: [canSmartReplace] looks for the smart-replace marker on the main
    clipboard whatever the selection mode of the instance and whatever the
    selection clipboard holds, while [read] takes its text from the
    selection clipboard in selection mode; so a selection-mode instance
    that writes plain text with the marker does not change what
    [canSmartReplace] answers. *)
Theorem canSmartReplace_reads_main_clipboard (p : Pasteboard) (w : World) :
  canSmartReplace p w = hasFormat smartpaste (hostClipboard w)
  /\ (forall (p' : Pasteboard) (selection : QMimeData)
             (freed : list QMimeData),
        canSmartReplace p' (mkWorld (hostClipboard w) selection freed)
        = canSmartReplace p w)
  /\ read p w
     = text (if m_selectionMode p then hostSelection w else hostClipboard w)
  /\ (forall text_ option,
        m_selectionMode p = true ->
        canSmartReplace p (writePlainText text_ option p w)
        = canSmartReplace p w).
Proof.
  unfold canSmartReplace, read, clipboardText, targetMode. simpl.
  split; [now destruct (hasFormat smartpaste (hostClipboard w))|].
  split; [reflexivity|].
  split; [now destruct (m_selectionMode p)|].
  intros text_ option Hsel. unfold writePlainText, targetMode.
  rewrite Hsel. reflexivity.
Qed.

(** ** Further facts about [QMimeData] *)

Lemma hasFormat_In (f : QString) (md : QMimeData) :
  hasFormat f md = true <-> In f (formats md).
Proof.
  unfold hasFormat. rewrite existsb_exists. split.
  - intros [x [Hin Heq]]. apply equal_eq in Heq. now subst.
  - intros Hin. exists f. split; [assumption | apply equal_refl].
Qed.

Lemma getData_removeFormat_other (f g : QString) (md : QMimeData) :
  f <> g -> getData g (removeFormat f md) = getData g md.
Proof.
  intros Hne. induction md as [|[h v] md IH]; simpl; [reflexivity|].
  destruct (equal h f) eqn:E; simpl.
  - apply equal_eq in E. subst.
    apply equal_neq in Hne. now rewrite Hne.
  - now rewrite IH.
Qed.

Lemma getData_setVariant_other (f g : QString) (v : QVariant)
    (md : QMimeData) :
  f <> g -> getData g (setVariant f v md) = getData g md.
Proof.
  intros Hne. unfold setVariant. rewrite getData_app.
  rewrite (getData_removeFormat_other f g md Hne).
  destruct (getData g md); [reflexivity|]. simpl.
  apply equal_neq in Hne. now rewrite Hne.
Qed.

Lemma removeFormat_absent_id (f : QString) (md : QMimeData) :
  ~ In f (formats md) -> removeFormat f md = md.
Proof.
  induction md as [|[h v] md IH]; simpl; intros Hnot; [reflexivity|].
  destruct (equal h f) eqn:E.
  - apply equal_eq in E. subst. tauto.
  - rewrite IH; tauto.
Qed.

Lemma hasFormat_setVariant_same (f : QString) (v : QVariant)
    (md : QMimeData) :
  hasFormat f (setVariant f v md) = true.
Proof.
  apply hasFormat_In. rewrite formats_setVariant. apply in_or_app.
  right. now left.
Qed.

Lemma setVariant_nonempty (f : QString) (v : QVariant) (md : QMimeData) :
  formats (setVariant f v md) <> [].
Proof.
  rewrite formats_setVariant. intros H. apply app_eq_nil in H as [_ H].
  discriminate H.
Qed.

Lemma removeFormat_canonical (f : QString) (md : QMimeData) :
  canonicalFormats md -> canonicalFormats (removeFormat f md).
Proof.
  unfold canonicalFormats. rewrite !Forall_forall. intros H g Hin.
  apply H. eapply formats_removeFormat_incl. exact Hin.
Qed.

Lemma setVariant_canonical (f : QString) (v : QVariant) (md : QMimeData) :
  storedFormat f = f -> canonicalFormats md ->
  canonicalFormats (setVariant f v md).
Proof.
  intros Hf Hc. unfold canonicalFormats. rewrite formats_setVariant.
  apply Forall_app. split.
  - now apply removeFormat_canonical.
  - now constructor.
Qed.

(** The buffer [writeString] leaves: the payload under the stored format. *)
Lemma writeString_buffer (type data_ : String) (p : Pasteboard) :
  exists v,
    m_writableData (writeString type data_ p)
    = Some (setVariant (storedFormat type) v (writableOrNew p))
    /\ (isTextMimeType type = true -> v = VString data_)
    /\ (isTextMimeType type = false -> isHtmlMimeType type = true ->
        v = VString data_).
Proof.
  unfold writeString, storedFormat. fold (writableOrNew p).
  destruct (isTextMimeType type) eqn:Ht.
  - exists (VString data_). split; [reflexivity|].
    split; intros; [reflexivity | discriminate].
  - destruct (isHtmlMimeType type) eqn:Hh.
    + exists (VString data_). split; [reflexivity|].
      split; intros; [discriminate | reflexivity].
    + unfold setData. destruct (equal type text_uri_list); eexists;
        (split; [reflexivity|]); split; intros; discriminate.
Qed.

Lemma storedFormat_idempotent (type : String) :
  storedFormat (storedFormat type) = storedFormat type.
Proof.
  destruct (isTextMimeType type) eqn:Ht.
  - replace (storedFormat type) with text_plain
      by (unfold storedFormat; now rewrite Ht).
    reflexivity.
  - destruct (isHtmlMimeType type) eqn:Hh.
    + replace (storedFormat type) with text_html
        by (unfold storedFormat; now rewrite Ht, Hh).
      reflexivity.
    + replace (storedFormat type) with type
        by (unfold storedFormat; now rewrite Ht, Hh).
      unfold storedFormat. now rewrite Ht, Hh.
Qed.

(** ** Further invariants of operation sequences *)

Lemma run_cons (op : Operation) (ops : list Operation)
    (s : Pasteboard * World) :
  run (op :: ops) s = run ops (step op s).
Proof.
  reflexivity.
Qed.

(** A property of the state kept by every admitted operation is kept by
    every sequence of admitted operations. *)
Lemma run_preserves (P : Pasteboard * World -> Prop)
    (admitted : Operation -> bool) :
  (forall op s, admitted op = true -> P s -> P (step op s)) ->
  forall ops s, forallb admitted ops = true -> P s -> P (run ops s).
Proof.
  intros Hstep ops. induction ops as [|op ops IH]; intros s Hops Hs.
  - exact Hs.
  - simpl in Hops. apply andb_true_iff in Hops as [Hop Hrest].
    rewrite run_cons. apply IH; [exact Hrest|]. now apply Hstep.
Qed.

Lemma forallb_always (ops : list Operation) :
  forallb (fun _ : Operation => true) ops = true.
Proof.
  induction ops as [|op ops IH]; [reflexivity | exact IH].
Qed.

Lemma step_classification (op : Operation) (p : Pasteboard) (w : World) :
  m_isForDragAndDrop (fst (step op (p, w))) = m_isForDragAndDrop p
  /\ m_selectionMode (fst (step op (p, w))) = m_selectionMode p.
Proof.
  destruct op; simpl; try (split; reflexivity).
  unfold clearType. destruct (m_writableData p) as [d|]; simpl;
    [|split; reflexivity].
  destruct (isEmpty (formats (removeFormat type d))); split; reflexivity.
Qed.

Lemma step_bufferCanonical (op : Operation) (p : Pasteboard) (w : World) :
  bufferCanonical p -> bufferCanonical (fst (step op (p, w))).
Proof.
  unfold bufferCanonical. intros Hc. destruct op; try exact Hc.
  - simpl.
    unfold clearType. destruct (m_writableData p) as [d|] eqn:Hd; simpl.
    + destruct Hc as (_ & Hu & Hcan).
      destruct (isEmpty (formats (removeFormat type d))) eqn:He; simpl;
        [exact I|].
      split; [|split].
      * intros H. rewrite H in He. discriminate He.
      * now apply removeFormat_unique.
      * now apply removeFormat_canonical.
    + now rewrite Hd.
  - exact I.
  - change (fst (step (OpWriteString type data_) (p, w)))
      with (writeString type data_ p).
    destruct (writeString_buffer type data_ p) as (v & Hw & _).
    rewrite Hw.
    assert (Hb : uniqueFormats (writableOrNew p)
                 /\ canonicalFormats (writableOrNew p)).
    { unfold writableOrNew. destruct (m_writableData p).
      - tauto.
      - split; constructor. }
    split; [apply setVariant_nonempty|]. split.
    + now apply setVariant_unique.
    + apply setVariant_canonical; [apply storedFormat_idempotent | tauto].
Qed.

(** What holds of an instance that no readable binding was given to, after
    any sequence of operations. *)
Lemma run_without_readable (isDragAndDrop : bool) (ops : list Operation)
    (w : World) :
  let p := fst (run ops (create None isDragAndDrop, w)) in
  m_readableData p = None /\ bufferCanonical p.
Proof.
  intros p. unfold p.
  apply (run_preserves
           (fun s => m_readableData (fst s) = None /\ bufferCanonical (fst s))
           (fun _ => true)).
  - intros op [q v] _ [Hr Hc]. simpl in Hr, Hc. split.
    + now rewrite step_readableData.
    + now apply step_bufferCanonical.
  - apply forallb_always.
  - split; [reflexivity | exact I].
Qed.

(** X1: starting from an instance whose bindings are exclusive, a sequence
    of operations keeps them exclusive whenever the instance has no readable
    binding or the sequence contains no [writeString]. *)
Theorem run_keeps_bindings_exclusive
    (p : Pasteboard) (ops : list Operation) (w : World) :
  bindingsExclusive p = true ->
  m_readableData p = None
  \/ forallb (fun op => negb (isWriteString op)) ops = true ->
  bindingsExclusive (fst (run ops (p, w))) = true.
Proof.
  intros Hex [Hnone | Hops].
  - apply bindingsExclusive_without_readable.
    apply (run_preserves (fun s => m_readableData (fst s) = None)
             (fun _ => true)); [| apply forallb_always | exact Hnone].
    intros op [q v] _ Hq. simpl in Hq. now rewrite step_readableData.
  - apply (run_preserves (fun s => bindingsExclusive (fst s) = true)
             (fun op => negb (isWriteString op))); [| exact Hops | exact Hex].
    intros op [q v] Hop Hq. simpl in Hq.
    apply step_bindingsExclusive; [|exact Hq].
    intros type data_ ->. discriminate Hop.
Qed.

Lemma step_deleted_copy_paste (op : Operation) (p : Pasteboard) (w : World) :
  isForCopyAndPaste p = true ->
  deleted (snd (step op (p, w))) = deleted w.
Proof.
  intros Hcp.
  assert (Hdnd : isForDragAndDrop p = false).
  { unfold isForCopyAndPaste in Hcp. unfold isForDragAndDrop.
    now destruct (m_isForDragAndDrop p). }
  destruct op; simpl.
  - unfold writeSelection. now destruct (targetMode p).
  - unfold writePlainText. now destruct (targetMode p).
  - unfold writeURL. now destruct (targetMode p).
  - unfold writeImage. destruct (rendererIsImage node); [|reflexivity].
    destruct (cachedImage node) as [image|]; [|reflexivity].
    destruct (errorOccurred image); [reflexivity|].
    now destruct (nativeImageForCurrentFrame image).
  - unfold clearType. rewrite Hdnd.
    destruct (m_writableData p) as [d|]; simpl.
    + destruct (isEmpty (formats (removeFormat type d)));
        unfold isForCopyAndPaste, set_writableData in *; simpl;
        now rewrite Hcp.
    + now rewrite Hcp.
  - unfold clear. now rewrite Hcp.
  - reflexivity.
  - reflexivity.
Qed.

(** X2: an instance that is not classified drag-and-drop (a private one
    included) never passes a buffer to [delete]: not in any sequence of
    operations, and not in its destructor. *)
Theorem copy_paste_instance_never_deletes
    (p : Pasteboard) (ops : list Operation) (w : World) :
  isForCopyAndPaste p = true ->
  let s := run ops (p, w) in
  deleted (snd s) = deleted w
  /\ deleted (Pasteboard_destroy (fst s) (snd s)) = deleted w.
Proof.
  intros Hcp s.
  assert (H : isForCopyAndPaste (fst s) = true
              /\ deleted (snd s) = deleted w).
  { unfold s.
    apply (run_preserves
             (fun s => isForCopyAndPaste (fst s) = true
                       /\ deleted (snd s) = deleted w)
             (fun _ => true)); [| apply forallb_always | now split].
    intros op [q v] _ [Hq Hv]. simpl in Hq, Hv. split.
    - unfold isForCopyAndPaste in *.
      now rewrite (proj1 (step_classification op q v)).
    - now rewrite step_deleted_copy_paste. }
  destruct H as [Hs Hd]. split; [exact Hd|].
  unfold Pasteboard_destroy. rewrite Hs.
  now destruct (m_writableData (fst s)).
Qed.

(** ** Writes to the host and what is read back *)

Lemma writePlainText_entries (text_ : String) (option : SmartReplaceOption)
    (p : Pasteboard) (w : World) :
  mimeData (targetMode p) (writePlainText text_ option p w)
  = (text_plain, VString (replace 160 32 text_))
    :: (if wantsSmartReplace option then [(smartpaste, VByteArray [])]
        else []).
Proof.
  unfold writePlainText. rewrite mimeData_setMimeData.
  destruct option; reflexivity.
Qed.

Lemma writeSelection_entries (selectedRange : Range)
    (canSmartCopyOrDelete : bool) (frame : Frame)
    (shouldSerialize : ShouldSerializeSelectedTextForDataTransfer)
    (p : Pasteboard) (w : World) :
  mimeData (targetMode p)
    (writeSelection selectedRange canSmartCopyOrDelete frame shouldSerialize
       p w)
  = (text_plain, VString (replace 160 32 (serializedText frame shouldSerialize)))
    :: (text_html,
        if Q_OS_MAC
        then VByteArray
               (utf8_fromUnicode
                  (macMarkupPrefix ++ createMarkup selectedRange
                   ++ macMarkupSuffix))
        else VString (createMarkup selectedRange))
    :: (if canSmartCopyOrDelete then [(smartpaste, VByteArray [])] else []).
Proof.
  unfold writeSelection. rewrite mimeData_setMimeData.
  fold (serializedText frame shouldSerialize).
  destruct Q_OS_MAC, canSmartCopyOrDelete; reflexivity.
Qed.

Lemma writeURL_entries (url : QUrl) (urlString : String) (p : Pasteboard)
    (w : World) :
  mimeData (targetMode p) (writeURL url urlString p w)
  = [(text_plain, VString urlString); (text_uri_list, VUrlList [url])].
Proof.
  unfold writeURL. rewrite mimeData_setMimeData. reflexivity.
Qed.

Lemma targetMode_main (p : Pasteboard) :
  m_selectionMode p = false -> targetMode p = Clipboard.
Proof.
  unfold targetMode. now intros ->.
Qed.

(** X3: on an instance that is not in selection mode, [canSmartReplace]
    after [writeSelection] answers the smart-copy flag that was passed,
    after [writePlainText] whether the option was [CanSmartReplace], and
    after a URL write false. *)
Theorem canSmartReplace_after_write
    (selectedRange : Range) (canSmartCopyOrDelete : bool) (frame : Frame)
    (shouldSerialize : ShouldSerializeSelectedTextForDataTransfer)
    (text_ : String) (option : SmartReplaceOption)
    (url : QUrl) (urlString : String) (p : Pasteboard) (w : World) :
  m_selectionMode p = false ->
  canSmartReplace p
    (writeSelection selectedRange canSmartCopyOrDelete frame shouldSerialize
       p w)
  = canSmartCopyOrDelete
  /\ canSmartReplace p (writePlainText text_ option p w)
     = wantsSmartReplace option
  /\ canSmartReplace p (writeURL url urlString p w) = false.
Proof.
  intros Hsel. pose proof (targetMode_main p Hsel) as Hmode.
  pose proof (writeSelection_entries selectedRange canSmartCopyOrDelete
                frame shouldSerialize p w) as Hs.
  pose proof (writePlainText_entries text_ option p w) as Hp.
  pose proof (writeURL_entries url urlString p w) as Hu.
  rewrite Hmode in Hs, Hp, Hu. unfold canSmartReplace.
  rewrite Hs, Hp, Hu. split; [|split].
  - now destruct canSmartCopyOrDelete.
  - now destruct option.
  - reflexivity.
Qed.

(** X4: [read] on the instance that wrote returns the text of its last
    write, in either mode: the text with U+00A0 replaced after
    [writePlainText] and [writeSelection], the URL string after a URL
    write. *)
Theorem read_after_write
    (selectedRange : Range) (canSmartCopyOrDelete : bool) (frame : Frame)
    (shouldSerialize : ShouldSerializeSelectedTextForDataTransfer)
    (text_ : String) (option : SmartReplaceOption)
    (url : QUrl) (urlString : String) (p : Pasteboard) (w : World) :
  read p (writePlainText text_ option p w) = replace 160 32 text_
  /\ read p
       (writeSelection selectedRange canSmartCopyOrDelete frame
          shouldSerialize p w)
     = replace 160 32 (serializedText frame shouldSerialize)
  /\ read p (writeURL url urlString p w) = urlString.
Proof.
  unfold read, clipboardText.
  rewrite writePlainText_entries, writeSelection_entries, writeURL_entries.
  repeat split.
Qed.

(** X5: after a URL write on an instance that is not in selection mode, an
    instance made by [createForCopyAndPaste] finds the URL in the URL list,
    its string under "text/plain", and in [readFilenames] the local path of
    the URL when its scheme is "file" and nothing otherwise. *)
Theorem writeURL_then_readFilenames
    (url : QUrl) (urlString : String) (p : Pasteboard) (w : World) :
  m_selectionMode p = false ->
  let reader := createForCopyAndPaste (writeURL url urlString p w) in
  readData reader
  = Some [(text_plain, VString urlString); (text_uri_list, VUrlList [url])]
  /\ readString text_plain reader = urlString
  /\ readFilenames reader
     = (if isFileUrl url then [url_toLocalFile url] else []).
Proof.
  intros Hsel reader.
  pose proof (writeURL_entries url urlString p w) as Hu.
  rewrite (targetMode_main p Hsel) in Hu.
  assert (Hr : readData reader
               = Some [(text_plain, VString urlString);
                       (text_uri_list, VUrlList [url])]).
  { unfold reader, createForCopyAndPaste, create, Pasteboard_new, readData.
    cbn [m_readableData]. now rewrite Hu. }
  split; [exact Hr|]. split.
  - unfold readString. rewrite Hr. reflexivity.
  - unfold readFilenames. rewrite Hr. rewrite readFilenames_loop_filter.
    unfold urls. simpl. now destruct (isFileUrl url).
Qed.


(** X7: [writeSelection], [writePlainText] and a URL write replace what the
    clipboard they target held by entries that depend on their arguments
    only, and leave the other clipboard as it was. *)
Theorem writes_replace_target_only
    (selectedRange : Range) (canSmartCopyOrDelete : bool) (frame : Frame)
    (shouldSerialize : ShouldSerializeSelectedTextForDataTransfer)
    (text_ : String) (option : SmartReplaceOption)
    (url : QUrl) (urlString : String) (p : Pasteboard) :
  replacesTargetOnly p
    (writeSelection selectedRange canSmartCopyOrDelete frame shouldSerialize
       p)
  /\ replacesTargetOnly p (writePlainText text_ option p)
  /\ replacesTargetOnly p (writeURL url urlString p).
Proof.
  unfold replacesTargetOnly. split; [|split]; intros w w2.
  - rewrite !writeSelection_entries. unfold writeSelection.
    destruct (targetMode p); repeat split.
  - rewrite !writePlainText_entries. unfold writePlainText.
    destruct (targetMode p); repeat split.
  - rewrite !writeURL_entries. unfold writeURL.
    destruct (targetMode p); repeat split.
Qed.

(** X8: after [writeSelection] with a non-empty markup, in a build that is
    not [Q_OS_MAC], [documentFragment] on the same instance builds its
    fragment from that markup and leaves [chosePlainText] false; when the
    markup yields no fragment it falls back, if allowed, to the selected
    text with U+00A0 replaced. *)
Theorem documentFragment_after_writeSelection
    (selectedRange : Range) (canSmartCopyOrDelete : bool) (frame : Frame)
    (shouldSerialize : ShouldSerializeSelectedTextForDataTransfer)
    (target : Frame) (context : Range) (allowPlainText : bool)
    (p : Pasteboard) (w : World) :
  Q_OS_MAC = false ->
  createMarkup selectedRange <> [] ->
  documentFragment target context allowPlainText p
    (writeSelection selectedRange canSmartCopyOrDelete frame shouldSerialize
       p w)
  = match createFragmentFromMarkup target (createMarkup selectedRange) with
    | Some fragment => (Some fragment, false)
    | None =>
        if allowPlainText
        then (createFragmentFromText context
                (replace 160 32 (serializedText frame shouldSerialize)),
              true)
        else (None, false)
    end.
Proof.
  intros Hmac Hmarkup. unfold documentFragment.
  rewrite writeSelection_entries, Hmac.
  set (md := (text_plain,
              VString (replace 160 32 (serializedText frame shouldSerialize)))
             :: (text_html, VString (createMarkup selectedRange))
             :: (if canSmartCopyOrDelete
                 then [(smartpaste, VByteArray [])] else [])).
  assert (Hh : hasHtml md = true) by reflexivity.
  assert (Hhtml : html md = createMarkup selectedRange) by reflexivity.
  assert (Ht : hasText md = true) by reflexivity.
  assert (Htext : text md
                  = replace 160 32 (serializedText frame shouldSerialize))
    by reflexivity.
  rewrite Hh, Hhtml, Ht, Htext.
  destruct (createMarkup selectedRange) as [|c markup] eqn:Hm;
    [now contradiction Hmarkup|].
  simpl isEmpty. simpl negb. cbv iota.
  destruct (createFragmentFromMarkup target (c :: markup)); [reflexivity|].
  destruct allowPlainText; simpl; [|reflexivity].
  now destruct (createFragmentFromText context
                  (replace 160 32 (serializedText frame shouldSerialize))).
Qed.

(** X9: after [writePlainText], [documentFragment] on the same instance
    finds no HTML: with [allowPlainText] it returns what
    [createFragmentFromText] makes of the written text and sets
    [chosePlainText]; without it the result is null and [chosePlainText]
    false. *)
Theorem documentFragment_after_writePlainText
    (text_ : String) (option : SmartReplaceOption)
    (target : Frame) (context : Range) (allowPlainText : bool)
    (p : Pasteboard) (w : World) :
  documentFragment target context allowPlainText p
    (writePlainText text_ option p w)
  = if allowPlainText
    then (createFragmentFromText context (replace 160 32 text_), true)
    else (None, false).
Proof.
  unfold documentFragment. rewrite writePlainText_entries.
  set (md := (text_plain, VString (replace 160 32 text_))
             :: (if wantsSmartReplace option
                 then [(smartpaste, VByteArray [])] else [])).
  assert (Hh : hasHtml md = false)
    by (unfold md; destruct (wantsSmartReplace option); reflexivity).
  assert (Ht : hasText md = true) by reflexivity.
  assert (Htext : text md = replace 160 32 text_) by reflexivity.
  rewrite Hh, Ht, Htext.
  destruct allowPlainText; simpl; [|reflexivity].
  now destruct (createFragmentFromText context (replace 160 32 text_)).
Qed.

(** X10: an instance in selection mode writes to the selection clipboard,
    and [read] returns what it wrote; but the instance that
    [createForGlobalSelection] makes is bound to the main clipboard, so its
    typed reads are what they were before the write. *)
Theorem selection_instance_reads_main_clipboard
    (text_ : String) (option : SmartReplaceOption) (p : Pasteboard)
    (w : World) :
  m_selectionMode p = true ->
  let after := writePlainText text_ option p w in
  createForGlobalSelection after = createForGlobalSelection w
  /\ readData (createForGlobalSelection after) = Some (hostClipboard w)
  /\ read (createForGlobalSelection after) after = replace 160 32 text_
  /\ (forall type,
        readString type (createForGlobalSelection after)
        = readString type (createForCopyAndPaste w)).
Proof.
  intros Hsel after.
  assert (Hmain : hostClipboard after = hostClipboard w).
  { unfold after, writePlainText, targetMode. now rewrite Hsel. }
  assert (Hsame : createForGlobalSelection after = createForGlobalSelection w).
  { unfold createForGlobalSelection, createForCopyAndPaste, create,
      Pasteboard_new. simpl. now rewrite Hmain. }
  split; [exact Hsame|]. split; [now rewrite Hsame|]. split.
  - pose proof (writePlainText_entries text_ option p w) as He.
    unfold targetMode in He. rewrite Hsel in He. fold after in He.
    unfold read, clipboardText, targetMode. simpl m_selectionMode.
    cbv iota. rewrite He. reflexivity.
  - intros type. now rewrite Hsame.
Qed.

(** ** The set of types *)

Lemma ListHashSet_contains (x : String) (result : list String) :
  existsb (equal x) result = true <-> In x result.
Proof.
  rewrite existsb_exists. split.
  - intros [y [Hin Heq]]. apply equal_eq in Heq. now subst.
  - intros Hin. exists x. split; [assumption | apply equal_refl].
Qed.

Lemma ListHashSet_fold (l result : list String) :
  NoDup result ->
  NoDup (fold_left ListHashSet_add l result)
  /\ (forall x, In x (fold_left ListHashSet_add l result)
                <-> In x result \/ In x l)
  /\ (exists tail, fold_left ListHashSet_add l result = result ++ tail).
Proof.
  revert result. induction l as [|a l IH]; intros result Hnd; simpl.
  - split; [exact Hnd|]. split; [intros x; tauto|].
    exists []. now rewrite app_nil_r.
  - unfold ListHashSet_add at 2 4 6.
    destruct (existsb (equal a) result) eqn:E.
    + apply ListHashSet_contains in E.
      destruct (IH result Hnd) as (H1 & H2 & H3).
      split; [exact H1|]. split; [|exact H3].
      intros x. rewrite H2. intuition (subst; auto).
    + assert (Hnot : ~ In a result).
      { intros Hin. apply ListHashSet_contains in Hin. congruence. }
      assert (Hnd' : NoDup (result ++ [a])).
      { apply NoDup_app; [exact Hnd | repeat constructor; simpl; tauto |].
        intros x Hx [<- | []]. now apply Hnot. }
      destruct (IH (result ++ [a]) Hnd') as (H1 & H2 & [tail H3]).
      split; [exact H1|]. split.
      * intros x. rewrite H2, in_app_iff. simpl. tauto.
      * exists (a :: tail). rewrite H3, <- app_assoc. reflexivity.
Qed.

Lemma ListHashSet_fold_unique (l result : list String) :
  NoDup (result ++ l) -> fold_left ListHashSet_add l result = result ++ l.
Proof.
  revert result. induction l as [|a l IH]; intros result Hnd; simpl.
  - now rewrite app_nil_r.
  - assert (Hnot : ~ In a result).
    { apply NoDup_remove_2 in Hnd. intros Hin. apply Hnd.
      apply in_or_app. now left. }
    unfold ListHashSet_add at 2.
    destruct (existsb (equal a) result) eqn:E;
      [apply ListHashSet_contains in E; contradiction|].
    rewrite IH; rewrite <- app_assoc; [reflexivity | exact Hnd].
Qed.

(** X12: [types] lists every format of the active binding once, in the
    order of first occurrence: it has no duplicates, its members are the
    formats of the binding, and it is the format list itself when that has
    no duplicates. *)
Theorem types_deduplicates (p : Pasteboard) :
  NoDup (types p)
  /\ (forall f, In f (types p)
                <-> exists d, readData p = Some d /\ In f (formats d))
  /\ (forall d, readData p = Some d -> uniqueFormats d ->
                types p = formats d).
Proof.
  unfold types. destruct (readData p) as [d|].
  - destruct (ListHashSet_fold (formats d) [] (NoDup_nil _))
      as (H1 & H2 & _).
    split; [exact H1|]. split.
    + intros f. rewrite H2. simpl. split.
      * intros [[] | Hin]. now exists d.
      * intros [d' [[= <-] Hin]]. now right.
    + intros d' [= <-] Hu. now apply (ListHashSet_fold_unique (formats d) []).
  - split; [constructor|]. split.
    + intros f. split; [intros [] | intros [d [H _]]; discriminate H].
    + intros d H. discriminate H.
Qed.

(** X13: [hasData] is true exactly when [types] is not empty. *)
Theorem hasData_iff_types (p : Pasteboard) :
  hasData p = negb (isEmpty (types p)).
Proof.
  unfold hasData, types. destruct (readData p) as [d|]; [|reflexivity].
  destruct (formats d) as [|f l]; [reflexivity|].
  destruct (ListHashSet_fold l [f]) as (_ & _ & [tail Ht]).
  { repeat constructor. simpl. tauto. }
  change (fold_left ListHashSet_add (f :: l) [])
    with (fold_left ListHashSet_add l [f]).
  rewrite Ht. reflexivity.
Qed.

(** ** Clearing *)

(** X11: after [clear()] the instance has no writable binding, a second
    [clear()] and the destructor change nothing more, and the selection
    clipboard is as before.  A copy-and-paste instance empties the main
    clipboard and deletes nothing; a drag-and-drop instance leaves the main
    clipboard alone and deletes its buffer if it had one.  Without a
    readable binding the instance then reports no data. *)
Theorem clear_all_effect (p : Pasteboard) (w : World) :
  let s := clear p w in
  m_writableData (fst s) = None
  /\ clear (fst s) (snd s) = s
  /\ Pasteboard_destroy (fst s) (snd s) = snd s
  /\ hostSelection (snd s) = hostSelection w
  /\ (if isForCopyAndPaste p
      then hostClipboard (snd s) = [] /\ deleted (snd s) = deleted w
      else hostClipboard (snd s) = hostClipboard w
           /\ deleted (snd s)
              = match m_writableData p with
                | Some d => d :: deleted w
                | None => deleted w
                end)
  /\ (m_readableData p = None ->
      hasData (fst s) = false
      /\ types (fst s) = []
      /\ forall type, readString type (fst s) = []).
Proof.
  intros s. unfold s, clear.
  assert (Hcp' : isForCopyAndPaste (set_writableData None p)
                 = isForCopyAndPaste p) by reflexivity.
  assert (Hread : m_readableData p = None ->
                  hasData (set_writableData None p) = false
                  /\ types (set_writableData None p) = []
                  /\ forall type,
                       readString type (set_writableData None p) = []).
  { intros Hr. unfold hasData, types, readString, readData. simpl.
    rewrite Hr. repeat split. }
  destruct (isForCopyAndPaste p) eqn:Hcp; cbn [fst snd]; rewrite Hcp'.
  - split; [reflexivity|]. split; [reflexivity|].
    split; [reflexivity|]. split; [reflexivity|].
    split; [split; reflexivity | exact Hread].
  - split; [reflexivity|]. split; [reflexivity|].
    split; [unfold Pasteboard_destroy; reflexivity|].
    split; [now destruct (m_writableData p)|].
    split; [now destruct (m_writableData p) | exact Hread].
Qed.

Lemma clearType_absent (type : String) (p : Pasteboard) (w : World)
    (d : QMimeData) :
  m_writableData p = Some d ->
  ~ In type (formats d) ->
  formats d <> [] ->
  clearType type p w
  = (p, if isForCopyAndPaste p then setMimeData (Some d) Clipboard w else w).
Proof.
  intros Hw Hnot Hne. unfold clearType. rewrite Hw.
  rewrite (removeFormat_absent_id type d Hnot).
  destruct (formats d) as [|f l] eqn:Hf; [now contradiction Hne|].
  simpl isEmpty. cbv iota.
  assert (Hp : set_writableData (Some d) p = p).
  { destruct p as [sel r wr dnd]. simpl in Hw. subst wr. reflexivity. }
  rewrite Hp. rewrite Hw. reflexivity.
Qed.

(** X20: [clear(type)] for a type the writable binding does not hold
    leaves the instance as it is; a copy-and-paste instance still pushes
    its binding to the main clipboard, a drag-and-drop instance leaves the
    host untouched. *)
Theorem clearType_absent_noop (type : String) (p : Pasteboard) (w : World)
    (d : QMimeData) :
  m_writableData p = Some d ->
  ~ In type (formats d) ->
  formats d <> [] ->
  fst (clearType type p w) = p
  /\ snd (clearType type p w)
     = (if isForCopyAndPaste p then setMimeData (Some d) Clipboard w else w).
Proof.
  intros Hw Hnot Hne. rewrite (clearType_absent type p w d Hw Hnot Hne).
  split; reflexivity.
Qed.

(** ** Typed strings written and read back *)

Lemma writeString_readableData (type data_ : String) (p : Pasteboard) :
  m_readableData (writeString type data_ p) = m_readableData p.
Proof.
  reflexivity.
Qed.

Lemma readData_without_readable (p : Pasteboard) :
  m_readableData p = None -> readData p = m_writableData p.
Proof.
  unfold readData. now intros ->.
Qed.

Lemma writableOrNew_canonical (p : Pasteboard) :
  bufferCanonical p ->
  uniqueFormats (writableOrNew p) /\ canonicalFormats (writableOrNew p).
Proof.
  unfold bufferCanonical, writableOrNew.
  destruct (m_writableData p); [tauto | split; constructor].
Qed.

Lemma html_excludes_text (type : String) :
  isHtmlMimeType type = true -> isTextMimeType type = false.
Proof.
  intros Hh. destruct (isTextMimeType type) eqn:Ht; [|reflexivity].
  rewrite (text_and_html_disjoint type Ht) in Hh. discriminate Hh.
Qed.

(** A payload written under one privileged identifier is what every
    identifier of the same privileged type reads. *)
Lemma readString_writeString_privileged (type type' data_ : String)
    (p : Pasteboard) :
  m_readableData p = None ->
  bufferCanonical p ->
  (isTextMimeType type = true /\ isTextMimeType type' = true)
  \/ (isHtmlMimeType type = true /\ isHtmlMimeType type' = true) ->
  readString type' (writeString type data_ p) = data_.
Proof.
  intros Hr Hc Hcase.
  destruct (writableOrNew_canonical p Hc) as [Hu _].
  destruct (writeString_buffer type data_ p) as (v & Hw & Hvt & Hvh).
  unfold readString.
  rewrite (readData_without_readable _
             (eq_trans (writeString_readableData type data_ p) Hr)), Hw.
  destruct Hcase as [[Ht Ht'] | [Hh Hh']].
  - assert (Hs : storedFormat type = text_plain)
      by (unfold storedFormat; now rewrite Ht).
    rewrite Hs, (Hvt Ht), (text_and_html_disjoint type' Ht'), Ht'.
    cbn [andb]. unfold hasText.
    rewrite hasFormat_setVariant_same. cbn [orb].
    unfold text, retrieveData.
    now rewrite (getData_setVariant_same _ _ _ Hu).
  - pose proof (html_excludes_text type Hh) as Ht.
    assert (Hs : storedFormat type = text_html)
      by (unfold storedFormat; now rewrite Ht, Hh).
    rewrite Hs, (Hvh Ht Hh), Hh'. unfold hasHtml.
    rewrite hasFormat_setVariant_same. cbn [andb].
    unfold html, retrieveData.
    now rewrite (getData_setVariant_same _ _ _ Hu).
Qed.

(** X14: on an instance constructed without a readable binding, after any
    sequence of operations that never hands its buffer to the clipboard, a
    string written with [writeString] under a
    plain-text identifier is returned unchanged by [readString] under any
    plain-text identifier, with or without a parameter clause; the same
    holds among the HTML identifiers.  No string is excepted. *)
Theorem privileged_roundtrip
    (isDragAndDrop : bool) (ops : list Operation) (w : World)
    (type type' data_ : String) :
  keepsBufferPrivate ops (create None isDragAndDrop, w) = true ->
  (isTextMimeType type = true /\ isTextMimeType type' = true)
  \/ (isHtmlMimeType type = true /\ isHtmlMimeType type' = true) ->
  let p := fst (run ops (create None isDragAndDrop, w)) in
  readString type' (writeString type data_ p) = data_.
Proof.
  intros _ Hcase p.
  destruct (run_without_readable isDragAndDrop ops w) as [Hr Hc].
  now apply readString_writeString_privileged.
Qed.

Lemma raw_type_stored (type : String) :
  isTextMimeType type = false -> isHtmlMimeType type = false ->
  type <> text_plain /\ type <> text_html /\ storedFormat type = type.
Proof.
  intros Ht Hh. split; [|split].
  - intros ->. discriminate Ht.
  - intros ->. discriminate Hh.
  - unfold storedFormat. now rewrite Ht, Hh.
Qed.

(** What [readString] returns for a type that is not privileged. *)
Lemma readString_raw (type : String) (p : Pasteboard) :
  isTextMimeType type = false -> isHtmlMimeType type = false ->
  readString type p
  = match readData p with
    | Some d =>
        utf16_toUnicode
          match getData type d with
          | Some (VByteArray b) => b
          | Some (VString s) => utf8_fromUnicode s
          | Some (VUrlList l) => urls_toUriList l
          | _ => []
          end
    | None => []
    end.
Proof.
  intros Ht Hh. destruct (raw_type_stored type Ht Hh) as (Hnp & _ & _).
  apply equal_neq in Hnp.
  unfold readString. destruct (readData p) as [d|]; [|reflexivity].
  rewrite Ht, Hh. cbn [andb]. unfold data, retrieveData. rewrite Hnp.
  now destruct (getData type d) as [[]|].
Qed.

(** X15: on an instance without a readable binding, [writeString] under
    one type leaves what [readString] returns for every other type that is
    not privileged. *)
Theorem writeString_frame (type type' data_ : String) (p : Pasteboard) :
  m_readableData p = None ->
  isTextMimeType type' = false ->
  isHtmlMimeType type' = false ->
  type <> type' ->
  readString type' (writeString type data_ p) = readString type' p.
Proof.
  intros Hr Ht' Hh' Hne.
  destruct (raw_type_stored type' Ht' Hh') as (Hnp & Hnh & _).
  assert (Hstored : storedFormat type <> type').
  { unfold storedFormat. destruct (isTextMimeType type); [congruence|].
    destruct (isHtmlMimeType type); congruence. }
  destruct (writeString_buffer type data_ p) as (v & Hw & _).
  rewrite !(readString_raw type' _ Ht' Hh').
  rewrite (readData_without_readable _
             (eq_trans (writeString_readableData type data_ p) Hr)), Hw.
  rewrite (readData_without_readable p Hr).
  rewrite (getData_setVariant_other _ _ _ _ Hstored).
  unfold writableOrNew. now destruct (m_writableData p).
Qed.

(** X16: on an instance constructed without a readable binding, after any
    sequence of operations that never hands its buffer to the clipboard,
    [clear(type)] followed by [readString(type)]
    returns the empty string, for every type that [writeString] stores
    under its own name other than "text/plain". *)
Theorem clearType_then_readString_empty
    (isDragAndDrop : bool) (ops : list Operation) (w : World)
    (type : String) :
  keepsBufferPrivate ops (create None isDragAndDrop, w) = true ->
  storedFormat type = type ->
  type <> text_plain ->
  let s := run ops (create None isDragAndDrop, w) in
  readString type (fst (clearType type (fst s) (snd s))) = [].
Proof.
  intros _ Hstored Hnp s.
  destruct (run_without_readable isDragAndDrop ops w) as [Hr Hc].
  fold s in Hr, Hc.
  assert (Ht : isTextMimeType type = false).
  { destruct (isTextMimeType type) eqn:E; [|reflexivity].
    unfold storedFormat in Hstored. rewrite E in Hstored. congruence. }
  assert (Hread : m_readableData (fst (clearType type (fst s) (snd s)))
                  = None).
  { pose proof (step_readableData (OpClearType type) (fst s) (snd s)) as H.
    simpl in H. now rewrite H. }
  unfold readString. rewrite (readData_without_readable _ Hread).
  unfold clearType. unfold bufferCanonical in Hc.
  destruct (m_writableData (fst s)) as [d|] eqn:Hw; cbn [fst].
  - destruct Hc as (_ & Hu & _).
    pose proof (removeFormat_absent type d Hu) as Habs.
    destruct (isEmpty (formats (removeFormat type d))); cbn [fst];
      [reflexivity|].
    unfold set_writableData. cbn [m_writableData].
    assert (Hhas : isHtmlMimeType type && hasHtml (removeFormat type d)
                   = false).
    { destruct (isHtmlMimeType type) eqn:Hh; [|reflexivity].
      unfold storedFormat in Hstored. rewrite Ht, Hh in Hstored.
      subst type. cbn [andb]. unfold hasHtml.
      destruct (hasFormat text_html (removeFormat text_html d)) eqn:E;
        [|reflexivity].
      apply hasFormat_In in E. contradiction. }
    rewrite Hhas, Ht. cbn [andb]. unfold data, retrieveData.
    apply getData_None in Habs. rewrite Habs.
    apply equal_neq in Hnp. rewrite Hnp. reflexivity.
  - now rewrite Hw.
Qed.

(** X17: [clear(type)] compares the identifier literally, while
    [writeString] and [readString] match the privileged types by prefix:
    on an instance constructed without a readable binding, after any
    sequence of operations that never hands its buffer to the clipboard, a
    string written under a privileged identifier with a parameter clause is
    not removed by [clear] of that identifier, and [readString] still
    returns it. *)
Theorem clearType_parameterised_keeps_entry
    (isDragAndDrop : bool) (ops : list Operation) (w w' : World)
    (type data_ : String) :
  keepsBufferPrivate ops (create None isDragAndDrop, w) = true ->
  storedFormat type <> type ->
  let p := fst (run ops (create None isDragAndDrop, w)) in
  let q := writeString type data_ p in
  fst (clearType type q w') = q
  /\ readString type (fst (clearType type q w')) = data_.
Proof.
  intros _ Hstored p q.
  destruct (run_without_readable isDragAndDrop ops w) as [Hr Hc].
  fold p in Hr, Hc.
  assert (Hq : bufferCanonical q).
  { exact (step_bufferCanonical (OpWriteString type data_) p w Hc). }
  assert (Hcase : (isTextMimeType type = true /\ isTextMimeType type = true)
                  \/ (isHtmlMimeType type = true
                      /\ isHtmlMimeType type = true)).
  { unfold storedFormat in Hstored. destruct (isTextMimeType type); [tauto|].
    destruct (isHtmlMimeType type); [tauto | congruence]. }
  unfold bufferCanonical in Hq.
  destruct (m_writableData q) as [d|] eqn:Hw.
  - destruct Hq as (Hne & _ & Hcan).
    assert (Hnot : ~ In type (formats d)).
    { intros Hin. unfold canonicalFormats in Hcan.
      rewrite Forall_forall in Hcan. now apply Hstored, Hcan. }
    rewrite (clearType_absent type q w' d Hw Hnot Hne). cbn [fst].
    split; [reflexivity|].
    now apply readString_writeString_privileged.
  - unfold q, writeString in Hw. discriminate Hw.
Qed.

(** X18: for a source instance without a readable binding,
    [writePasteboard] followed by [createForCopyAndPaste] gives an instance
    that answers [readString], [types], [hasData] and [readFilenames] as
    the source does. *)
Theorem writePasteboard_then_read (sourcePasteboard : Pasteboard)
    (w : World) :
  m_readableData sourcePasteboard = None ->
  let reader := createForCopyAndPaste (writePasteboard sourcePasteboard w) in
  (forall type, readString type reader = readString type sourcePasteboard)
  /\ types reader = types sourcePasteboard
  /\ hasData reader = hasData sourcePasteboard
  /\ readFilenames reader = readFilenames sourcePasteboard.
Proof.
  intros Hr reader.
  assert (Hreader : readData reader
                    = Some (match m_writableData sourcePasteboard with
                            | Some d => d
                            | None => newQMimeData
                            end)).
  { unfold reader, createForCopyAndPaste, create, Pasteboard_new, readData.
    cbn [m_readableData]. unfold writePasteboard, clipboardData.
    now rewrite mimeData_setMimeData. }
  pose proof (readData_without_readable sourcePasteboard Hr) as Hsrc.
  unfold readString, types, hasData, readFilenames.
  rewrite Hreader, Hsrc.
  destruct (m_writableData sourcePasteboard) as [d|].
  - repeat split.
  - split; [|repeat split].
    intros type. unfold newQMimeData, hasHtml, hasText, hasUrls, hasFormat.
    cbn [formats map existsb orb]. rewrite !andb_false_r.
    unfold data, retrieveData. cbn [getData].
    now destruct (equal type text_plain).
Qed.

(** X19: after [writeString] on an instance without a readable binding,
    [hasData] is true and [types] contains the format the payload is stored
    under: "text/plain" or "text/html" for the privileged identifiers, the
    identifier itself otherwise. *)
Theorem writeString_then_hasData (type data_ : String) (p : Pasteboard) :
  m_readableData p = None ->
  hasData (writeString type data_ p) = true
  /\ In (storedFormat type) (types (writeString type data_ p)).
Proof.
  intros Hr.
  destruct (writeString_buffer type data_ p) as (v & Hw & _).
  pose proof (readData_without_readable _
                (eq_trans (writeString_readableData type data_ p) Hr))
    as Hread.
  rewrite Hw in Hread.
  assert (Hin : In (storedFormat type)
                  (formats (setVariant (storedFormat type) v
                              (writableOrNew p)))).
  { rewrite formats_setVariant. apply in_or_app. right. now left. }
  split.
  - unfold hasData. rewrite Hread.
    destruct (formats (setVariant (storedFormat type) v (writableOrNew p)));
      [contradiction | reflexivity].
  - unfold types. rewrite Hread.
    destruct (ListHashSet_fold
                (formats (setVariant (storedFormat type) v (writableOrNew p)))
                [] (NoDup_nil _)) as (_ & H & _).
    apply H. now right.
Qed.

(** ** Drag-and-drop instances and the host *)

Lemma step_host_drag (op : Operation) (p : Pasteboard) (w : World) :
  isForDragAndDrop p = true ->
  isBufferOperation op = true ->
  hostClipboard (snd (step op (p, w))) = hostClipboard w
  /\ hostSelection (snd (step op (p, w))) = hostSelection w.
Proof.
  intros Hdnd Hop.
  assert (Hcp : isForCopyAndPaste p = false).
  { unfold isForDragAndDrop in Hdnd. unfold isForCopyAndPaste.
    now rewrite Hdnd. }
  destruct op; try discriminate Hop; simpl.
  - unfold clearType. rewrite Hdnd.
    destruct (m_writableData p) as [d|]; simpl.
    + destruct (isEmpty (formats (removeFormat type d)));
        unfold isForCopyAndPaste, set_writableData in *; simpl;
        rewrite Hcp; split; reflexivity.
    + rewrite Hcp. split; reflexivity.
  - unfold clear. rewrite Hcp.
    destruct (m_writableData p); split; reflexivity.
  - split; reflexivity.
Qed.

(** X21: on a drag-and-drop instance, no sequence of [writeString],
    [clear(type)] and [clear()] changes either host clipboard. *)
Theorem drag_instance_keeps_host
    (p : Pasteboard) (ops : list Operation) (w : World) :
  isForDragAndDrop p = true ->
  forallb isBufferOperation ops = true ->
  hostClipboard (snd (run ops (p, w))) = hostClipboard w
  /\ hostSelection (snd (run ops (p, w))) = hostSelection w.
Proof.
  intros Hdnd Hops.
  assert (H : isForDragAndDrop (fst (run ops (p, w))) = true
              /\ hostClipboard (snd (run ops (p, w))) = hostClipboard w
              /\ hostSelection (snd (run ops (p, w))) = hostSelection w).
  { apply (run_preserves
             (fun s => isForDragAndDrop (fst s) = true
                       /\ hostClipboard (snd s) = hostClipboard w
                       /\ hostSelection (snd s) = hostSelection w)
             isBufferOperation); [| exact Hops | now repeat split].
    intros op [q v] Hop (Hq & Hc & Hs). simpl in Hq, Hc, Hs.
    destruct (step_host_drag op q v Hq Hop) as [Hc' Hs'].
    split; [|split].
    - unfold isForDragAndDrop in *.
      now rewrite (proj1 (step_classification op q v)).
    - now rewrite Hc'.
    - now rewrite Hs'. }
  tauto.
Qed.

(** ** A leading byte order mark *)

Lemma utf16_drops_byte_order_mark (rest : String) :
  wellFormed rest ->
  utf16_toUnicode (utf16Bytes (ByteOrderMark :: rest)) = rest.
Proof.
  intros Hwf. pose proof (convertToUnicode_host rest [] Hwf) as Htail.
  unfold hostEndianness in Htail.
  unfold utf16_toUnicode, utf16Bytes. cbn [flat_map].
  unfold unitBytes at 1. fold (utf16Bytes rest).
  destruct bigEndianHost; exact Htail.
Qed.

(** X22: on an instance constructed without a readable binding, after any
    sequence of operations that never hands its buffer to the clipboard, a
    string that starts with U+FEFF, is held as 16-bit code units and has
    fewer than 2^30 of them, written under a type that is neither
    privileged nor "text/uri-list", is read back without that first code
    unit and otherwise unchanged, on a host of either byte order. *)
Theorem writeString_readString_drops_mark
    (isDragAndDrop : bool) (ops : list Operation) (w : World)
    (type rest : String) :
  keepsBufferPrivate ops (create None isDragAndDrop, w) = true ->
  isTextMimeType type = false ->
  isHtmlMimeType type = false ->
  type <> text_uri_list ->
  wellFormed rest ->
  is8Bit (ByteOrderMark :: rest) = false ->
  fitsInt (ByteOrderMark :: rest) ->
  let p := fst (run ops (create None isDragAndDrop, w)) in
  readString type (writeString type (ByteOrderMark :: rest) p) = rest.
Proof.
  intros _ Ht Hh Huri Hwf H16 Hfit p.
  destruct (run_without_readable isDragAndDrop ops w) as [Hr Hc].
  fold p in Hr, Hc.
  destruct (writableOrNew_canonical p Hc) as [Hu _].
  apply equal_neq in Huri.
  rewrite (readString_raw type _ Ht Hh).
  rewrite (readData_without_readable _
             (eq_trans (writeString_readableData type _ p) Hr)).
  unfold writeString. fold (writableOrNew p). rewrite Ht, Hh.
  unfold setData. rewrite Huri. cbn [m_writableData set_writableData].
  rewrite (getData_setVariant_same _ _ _ Hu).
  rewrite (characters16Bytes_utf16 _ H16 Hfit).
  now apply utf16_drops_byte_order_mark.
Qed.

End Proofs.

(** ** The claims on concrete instances *)

(** C2, as stated, fails: after [writePlainText] on a private instance,
    [readString("text/plain")] on that instance returns the empty string,
    not "hello world". *)
Lemma private_readString_after_writePlainText :
  let s := run (qt:=x11Host) (editing:=sampleEditing)
             [OpWritePlainText hello_nbsp_world CanSmartReplace]
             (createPrivate, emptyWorld) in
  readString text_plain (fst s) = []
  /\ readString text_plain (fst s) <> hello_world.
Proof.
  intros s. split.
  - reflexivity.
  - intros H. discriminate H.
Qed.

(** C3, as stated, fails: a string that starts with U+FEFF comes back
    without its first code unit, because the UTF-16 codec takes it for a
    byte order mark, whatever the byte order of the host; one that starts
    with U+FFFE comes back without it and with the bytes of every other
    unit swapped. *)
Lemma roundtrip_drops_byte_order_mark :
  let type := QLatin1String "application/x-note" in
  let p := createPrivate (qt:=x11Host) in
  isTextMimeType type = false
  /\ isHtmlMimeType type = false
  /\ readString type (writeString type [65279; 97] p) = [97]
  /\ readString type (writeString type [65279; 97] p) <> [65279; 97]
  /\ readString type (writeString type [65534; 97] p) = [24832]
  /\ readString type
       (writeString type [65279; 97] (createPrivate (qt:=bigEndianX11Host)))
     = [97].
Proof.
  intros type p. split; [reflexivity|]. split; [reflexivity|].
  split; [reflexivity|]. split; [intros H; discriminate H|].
  split; reflexivity.
Qed.

(** [writeString_readString_roundtrip] on a private instance that already
    holds a text entry and has written plain text to the host. *)
Lemma writeString_readString_roundtrip_witness :
  let type := QLatin1String "application/x-note" in
  let p := fst (run (qt:=x11Host) (editing:=sampleEditing)
                  [OpWriteString text_plain hello_world;
                   OpWritePlainText hello_world CanSmartReplace]
                  (create None false, emptyWorld)) in
  readString type (writeString type euro_note p) = euro_note.
Proof.
  intros type p.
  refine (proj2 (proj2 (writeString_readString_roundtrip
                          (qt:=x11Host) (editing:=sampleEditing)
                          false
                          [OpWriteString text_plain hello_world;
                           OpWritePlainText hello_world CanSmartReplace]
                          emptyWorld type euro_note _ _ _ _ _ _ _ _))).
  - reflexivity.
  - reflexivity.
  - reflexivity.
  - intros H. discriminate H.
  - unfold wellFormed, euro_note. simpl.
    repeat constructor; unfold isUChar; lia.
  - reflexivity.
  - unfold fitsInt. simpl. lia.
  - intros c rest H. injection H as <- _.
    unfold ByteOrderMark, ByteOrderSwapped. split; lia.
Defined.



(** [clearType_pushes_to_host] on a copy-and-paste instance that holds a
    text entry and a custom entry. *)
Lemma clearType_pushes_to_host_witness :
  let type := QLatin1String "application/x-note" in
  let p := writeString (qt:=x11Host) type hello_world
             (writeString text_plain hello_world createPrivate) in
  let s := clearType type p emptyWorld in
  isForCopyAndPaste p = true
  /\ formats (mimeData Clipboard (snd s)) = [text_plain]
  /\ hostClipboard (snd s) = [(text_plain, VString hello_world)].
Proof.
  intros type p s.
  pose proof (clearType_pushes_to_host (qt:=x11Host)
                type p emptyWorld eq_refl) as H.
  split; [reflexivity|]. split.
  - exact (proj1 (proj2 (proj2 (proj2 H)))).
  - exact (proj1 (proj2 (proj2 H))).
Defined.

(** ** Further examples on the concrete host *)

(** The prefix match is case sensitive and needs the [;]. *)
Example isTextMimeType_examples :
  isTextMimeType (QLatin1String "text/plain; charset=utf-8") = true
  /\ isTextMimeType (QLatin1String "text/plainx") = false
  /\ isTextMimeType (QLatin1String "Text/Plain") = false
  /\ isHtmlMimeType (QLatin1String "text/html; charset=utf-8") = true
  /\ isHtmlMimeType (QLatin1String "text/plain") = false.
Proof.
  repeat split.
Qed.

(** [privileged_type_dispatch] on a drag payload with an HTML entry, read
    under the parameterised identifier. *)
Lemma privileged_type_dispatch_witness :
  let payload := setHtml (qt:=x11Host) (QLatin1String "<b>x</b>") [] in
  let p := createForDragAndDropWith (Some payload) in
  readString (QLatin1String "text/html; charset=utf-8") p
  = QLatin1String "<b>x</b>".
Proof.
  intros payload p.
  destruct (privileged_type_dispatch (qt:=x11Host)
              (QLatin1String "text/html; charset=utf-8"))
    as (_ & _ & _ & _ & Hhtml & _).
  apply (Hhtml p payload eq_refl).
  - right. exists (QLatin1String " charset=utf-8"). reflexivity.
  - reflexivity.
Defined.

(** One file URL and one https URL: one path, that of the file URL. *)
Example readFilenames_file_and_https :
  let file := mkSampleUrl (QLatin1String "file") (QLatin1String "/tmp/a") in
  let https := mkSampleUrl (QLatin1String "https") (QLatin1String "/b") in
  let payload := setUrls (qt:=x11Host) [https; file] [] in
  readFilenames (createForDragAndDropWith (Some payload))
  = [QLatin1String "/tmp/a"].
Proof.
  intros file https payload. unfold readFilenames, readData. simpl.
  reflexivity.
Qed.

(** [documentFragment] reads the host clipboard, never the bindings of the
    instance: over a drag payload with the text "abc" and an empty host
    clipboard it returns null; with the text on the host clipboard it takes
    the plain-text path. *)
Example documentFragment_reads_host_clipboard :
  let abc := QLatin1String "abc" in
  let payload := setText (qt:=x11Host) abc [] in
  let p := createForDragAndDropWith (Some payload) in
  let frame := (abc, abc) in
  documentFragment (editing:=sampleEditing) frame abc true p emptyWorld
  = (None, false)
  /\ documentFragment (editing:=sampleEditing) frame abc true p
       (mkWorld payload [] [])
     = (Some (false, abc), true).
Proof.
  intros abc payload p frame. split; reflexivity.
Qed.

(** A selection-mode instance writes the marker to the selection clipboard,
    where [canSmartReplace] does not look. *)
Example canSmartReplace_after_selection_write :
  let p := createForGlobalSelection (qt:=x11Host) emptyWorld in
  let w := writePlainText hello_world CanSmartReplace p emptyWorld in
  hasFormat smartpaste (hostSelection w) = true
  /\ canSmartReplace p w = false.
Proof.
  intros p w. split; reflexivity.
Qed.

(** ** The further properties on concrete instances *)

(** [run_keeps_bindings_exclusive] on an instance over a drag payload that
    is cleared twice. *)
Lemma run_keeps_bindings_exclusive_witness :
  bindingsExclusive
    (fst (run (qt:=x11Host) (editing:=sampleEditing)
            [OpClearType text_plain; OpClear]
            (createForDragAndDropWith (Some [(text_plain, VString hello_world)]),
             emptyWorld)))
  = true.
Proof.
  apply (run_keeps_bindings_exclusive (qt:=x11Host) (editing:=sampleEditing)).
  - reflexivity.
  - right. reflexivity.
Defined.

(** [copy_paste_instance_never_deletes] on a private instance that writes
    and clears. *)
Lemma copy_paste_instance_never_deletes_witness :
  let s := run (qt:=x11Host) (editing:=sampleEditing)
             [OpWriteString note_type hello_world; OpClearType note_type;
              OpWriteString text_plain hello_world; OpClear]
             (createPrivate, emptyWorld) in
  deleted (Pasteboard_destroy (fst s) (snd s)) = [].
Proof.
  intros s.
  exact (proj2 (copy_paste_instance_never_deletes
                  (qt:=x11Host) (editing:=sampleEditing)
                  createPrivate _ emptyWorld eq_refl)).
Defined.

(** [canSmartReplace_after_write] on a private instance. *)
Lemma canSmartReplace_after_write_witness :
  canSmartReplace (qt:=x11Host) createPrivate
    (writeSelection (editing:=sampleEditing) hello_world true
       (hello_world, hello_world) DefaultSelectedTextType createPrivate
       emptyWorld)
  = true.
Proof.
  exact (proj1 (canSmartReplace_after_write
                  (qt:=x11Host) (editing:=sampleEditing)
                  hello_world true (hello_world, hello_world)
                  DefaultSelectedTextType hello_world CanSmartReplace
                  file_url hello_world createPrivate emptyWorld eq_refl)).
Defined.

(** [writeURL_then_readFilenames] for a file URL. *)
Lemma writeURL_then_readFilenames_witness :
  readFilenames
    (createForCopyAndPaste
       (writeURL (qt:=x11Host) file_url (QLatin1String "file:///tmp/a")
          createPrivate emptyWorld))
  = [QLatin1String "/tmp/a"].
Proof.
  exact (proj2 (proj2 (writeURL_then_readFilenames (qt:=x11Host)
                         file_url (QLatin1String "file:///tmp/a")
                         createPrivate emptyWorld eq_refl))).
Defined.

(** [documentFragment_after_writeSelection] for a bold "x". *)
Lemma documentFragment_after_writeSelection_witness :
  let markup := QLatin1String "<b>x</b>" in
  documentFragment (qt:=x11Host) (editing:=sampleEditing)
    (hello_world, hello_world) hello_world true createPrivate
    (writeSelection (editing:=sampleEditing) markup false
       (hello_world, hello_world) DefaultSelectedTextType createPrivate
       emptyWorld)
  = (Some (true, markup), false).
Proof.
  intros markup.
  refine (documentFragment_after_writeSelection
            (qt:=x11Host) (editing:=sampleEditing)
            markup false (hello_world, hello_world) DefaultSelectedTextType
            (hello_world, hello_world) hello_world true createPrivate
            emptyWorld eq_refl _).
  intros H. discriminate H.
Defined.

(** [selection_instance_reads_main_clipboard] on an empty host. *)
Lemma selection_instance_reads_main_clipboard_witness :
  let p := createForGlobalSelection (qt:=x11Host) emptyWorld in
  let after := writePlainText hello_nbsp_world CanSmartReplace p emptyWorld in
  read (createForGlobalSelection after) after = hello_world
  /\ readData (createForGlobalSelection after) = Some [].
Proof.
  intros p after.
  pose proof (selection_instance_reads_main_clipboard (qt:=x11Host)
                hello_nbsp_world CanSmartReplace p emptyWorld eq_refl) as H.
  split; [exact (proj1 (proj2 (proj2 H))) | exact (proj1 (proj2 H))].
Defined.

(** [privileged_roundtrip]: written with a parameter clause, read without;
    the string starts with U+FEFF. *)
Lemma privileged_roundtrip_witness :
  readString (qt:=x11Host) text_plain
    (writeString text_plain_utf8 [65279; 97]
       (fst (run (editing:=sampleEditing) [OpWriteString note_type hello_world]
               (create None true, emptyWorld))))
  = [65279; 97].
Proof.
  apply (privileged_roundtrip (qt:=x11Host) (editing:=sampleEditing)
           true [OpWriteString note_type hello_world] emptyWorld
           text_plain_utf8 text_plain [65279; 97]).
  - reflexivity.
  - left. split; reflexivity.
Defined.

(** [writeString_frame] between two custom types. *)
Lemma writeString_frame_witness :
  let p := writeString (qt:=x11Host) note_type hello_world createPrivate in
  readString note_type (writeString other_type (QLatin1String "x") p)
  = readString note_type p.
Proof.
  intros p.
  apply (writeString_frame (qt:=x11Host) other_type note_type
           (QLatin1String "x") p).
  - reflexivity.
  - reflexivity.
  - reflexivity.
  - intros H. discriminate H.
Defined.

(** [clearType_then_readString_empty] with another entry left behind. *)
Lemma clearType_then_readString_empty_witness :
  let s := run (qt:=x11Host) (editing:=sampleEditing)
             [OpWriteString note_type hello_world;
              OpWriteString other_type hello_world]
             (create None false, emptyWorld) in
  readString note_type (fst (clearType note_type (fst s) (snd s))) = [].
Proof.
  intros s.
  apply (clearType_then_readString_empty
           (qt:=x11Host) (editing:=sampleEditing) false
           [OpWriteString note_type hello_world;
            OpWriteString other_type hello_world]
           emptyWorld note_type).
  - reflexivity.
  - reflexivity.
  - intros H. discriminate H.
Defined.

(** [clearType_parameterised_keeps_entry] for "text/plain;charset=utf-8". *)
Lemma clearType_parameterised_keeps_entry_witness :
  let q := writeString (qt:=x11Host) text_plain_utf8 hello_world
             (fst (run (editing:=sampleEditing) []
                     (create None true, emptyWorld))) in
  readString text_plain_utf8 (fst (clearType text_plain_utf8 q emptyWorld))
  = hello_world.
Proof.
  intros q.
  refine (proj2 (clearType_parameterised_keeps_entry
                   (qt:=x11Host) (editing:=sampleEditing) true [] emptyWorld
                   emptyWorld text_plain_utf8 hello_world eq_refl _)).
  intros H. discriminate H.
Defined.

(** [writePasteboard_then_read] for a source that holds a text entry. *)
Lemma writePasteboard_then_read_witness :
  let source := writeString (qt:=x11Host) text_plain hello_world
                  createPrivate in
  types (createForCopyAndPaste (writePasteboard source emptyWorld))
  = types source.
Proof.
  intros source.
  exact (proj1 (proj2 (writePasteboard_then_read (qt:=x11Host) source
                         emptyWorld eq_refl))).
Defined.

(** [writeString_then_hasData] on a fresh drag-and-drop instance. *)
Lemma writeString_then_hasData_witness :
  hasData (writeString (qt:=x11Host) text_plain_utf8 hello_world
             createForDragAndDrop)
  = true.
Proof.
  exact (proj1 (writeString_then_hasData (qt:=x11Host) text_plain_utf8
                  hello_world createForDragAndDrop eq_refl)).
Defined.

(** [clearType_absent_noop] on a drag-and-drop instance. *)
Lemma clearType_absent_noop_witness :
  let p := writeString (qt:=x11Host) note_type hello_world
             createForDragAndDrop in
  fst (clearType other_type p emptyWorld) = p.
Proof.
  intros p.
  refine (proj1 (clearType_absent_noop (qt:=x11Host) other_type p emptyWorld
                   [(note_type, VByteArray (characters16Bytes hello_world))]
                   eq_refl _ _)).
  - simpl. intros [H | []]. discriminate H.
  - intros H. discriminate H.
Defined.

(** [drag_instance_keeps_host] with a host clipboard that holds text. *)
Lemma drag_instance_keeps_host_witness :
  let w := mkWorld (qt:=x11Host) [(text_plain, VString hello_world)] [] [] in
  hostClipboard
    (snd (run (editing:=sampleEditing)
            [OpWriteString note_type hello_world; OpClearType note_type;
             OpClear]
            (createForDragAndDrop, w)))
  = [(text_plain, VString hello_world)].
Proof.
  intros w.
  exact (proj1 (drag_instance_keeps_host
                  (qt:=x11Host) (editing:=sampleEditing)
                  createForDragAndDrop
                  [OpWriteString note_type hello_world;
                   OpClearType note_type; OpClear]
                  w eq_refl eq_refl)).
Defined.

(** [writeString_readString_drops_mark] on a big-endian host. *)
Lemma writeString_readString_drops_mark_witness :
  readString (qt:=bigEndianX11Host) note_type
    (writeString note_type (ByteOrderMark :: QLatin1String "note")
       (fst (run (editing:=sampleEditing) []
               (create None false, emptyWorld))))
  = QLatin1String "note".
Proof.
  apply (writeString_readString_drops_mark
           (qt:=bigEndianX11Host) (editing:=sampleEditing)
           false [] emptyWorld note_type (QLatin1String "note")).
  - reflexivity.
  - reflexivity.
  - reflexivity.
  - intros H. discriminate H.
  - unfold wellFormed. simpl. repeat constructor; unfold isUChar; lia.
  - reflexivity.
  - unfold fitsInt. simpl. lia.
Defined.
